(** * web-library: reader component and export dialog

    A shallow embedding of [src/js/component/reader.jsx] (the reader
    reducer, the effects of the [Reader] component, the page-rotation
    flow and the diff-worker client) and of
    [src/js/component/modal/export-modal.jsx] (the export dialog),
    followed by the properties the specification states about them.

    Conventions of the embedding:
    - a React reducer is a pure function [State -> Action -> State];
    - the body of an effect or of a callback is a computation in the
      monad [M], which allocates buffer identities and records, in
      program order, every call the code makes to a collaborator
      (the store, the embedded viewer, a worker, the console);
    - the outcome of an awaited promise is an argument of the model
      ([Promise]): fulfilled, rejected, or never settled;
    - JavaScript numbers that hold counters and millisecond timestamps
      are integers of [Z] (they are exact below 2^53). *)

From Stdlib Require Import List String ZArith Bool Lia Arith.
From Stdlib Require Import Strings.Byte.
Import ListNotations.

Local Open Scope string_scope.
Local Open Scope Z_scope.
Local Open Scope list_scope.

Set Implicit Arguments.

(* ===================================================================== *)
(** ** Values shared by the components *)
(* ===================================================================== *)

(** What a rejected promise or a [throw] carries. *)
Definition JsError := string.

(** The three states of a promise, as an awaiting caller sees them. *)
Inductive Promise (A E : Type) : Type :=
| Pending
| Fulfilled (value : A)
| Rejected (reason : E).

Arguments Pending {A E}.
Arguments Fulfilled {A E} value.
Arguments Rejected {A E} reason.

(** A binary buffer (ArrayBuffer / Uint8Array).  [buf_id] is the identity
    of the JavaScript object, [buf_bytes] its content: two buffers with
    the same bytes and different identities are distinct objects, so that
    handing one over leaves the other untouched. *)
Record Buffer : Type := mkBuffer {
  buf_id : nat;
  buf_bytes : list byte
}.

(** An item of the store, as far as this code reads it. *)
Record Item : Type := mkItem {
  key : string;
  itemType : string;
  deleted : bool;
  contentType : string;
  filename : string;
  properties : list (string * string)
}.

(** The JSON form of an annotation handed to the embedded viewer. *)
Definition Json := list (string * string).

(** The payload of a worker message. *)
Inductive Payload : Type :=
| PayloadBytes (bytes : list byte)
| PayloadText (text : string)
| PayloadUndefined.

(* ===================================================================== *)
(** ** The reader reducer (reader.jsx, lines 28-30 and 103-130) *)
(* ===================================================================== *)

Definition UNFETCHED : Z := 0.
Definition NOT_IMPORTED : Z := 0.
Definition FETCHING : Z := 1.
Definition IMPORTING : Z := 1.
Definition FETCHED : Z := 2.
Definition IMPORTED : Z := 2.

Inductive Action : Type :=
| BEGIN_FETCH_DATA
| COMPLETE_FETCH_DATA (data : Buffer)
| ERROR_FETCH_DATA (error : JsError)
| BEGIN_IMPORT_ANNOTATIONS
| COMPLETE_IMPORT_ANNOTATIONS (importedAnnotations : list Json)
| ERROR_IMPORT_ANNOTATIONS (error : JsError)
| SKIP_IMPORT_ANNOTATIONS
| READY
| ROTATE_PAGES (pageIndexes : list Z) (degrees : Z)
| ROTATING_PAGES
| ROTATED_PAGES (data : Buffer)
| OTHER (type : string).

(** The state of [useReducer(readerReducer, ...)].  The initial object has
    no [error] property; it reads as [undefined], here [None]. *)
Record State : Type := mkState {
  action : option Action;
  isReady : bool;
  data : option Buffer;
  dataState : Z;
  annotationsState : Z;
  importedAnnotations : list Json;
  error : option JsError
}.

Definition initialState : State :=
  {| action := None;
     isReady := false;
     data := None;
     dataState := UNFETCHED;
     annotationsState := NOT_IMPORTED;
     importedAnnotations := [];
     error := None |}.

Definition set_dataState (v : Z) (s : State) : State :=
  {| action := action s; isReady := isReady s; data := data s;
     dataState := v; annotationsState := annotationsState s;
     importedAnnotations := importedAnnotations s; error := error s |}.

Definition set_data (v : option Buffer) (s : State) : State :=
  {| action := action s; isReady := isReady s; data := v;
     dataState := dataState s; annotationsState := annotationsState s;
     importedAnnotations := importedAnnotations s; error := error s |}.

Definition set_error (v : option JsError) (s : State) : State :=
  {| action := action s; isReady := isReady s; data := data s;
     dataState := dataState s; annotationsState := annotationsState s;
     importedAnnotations := importedAnnotations s; error := v |}.

Definition set_annotationsState (v : Z) (s : State) : State :=
  {| action := action s; isReady := isReady s; data := data s;
     dataState := dataState s; annotationsState := v;
     importedAnnotations := importedAnnotations s; error := error s |}.

Definition set_importedAnnotations (v : list Json) (s : State) : State :=
  {| action := action s; isReady := isReady s; data := data s;
     dataState := dataState s; annotationsState := annotationsState s;
     importedAnnotations := v; error := error s |}.

Definition set_isReady (v : bool) (s : State) : State :=
  {| action := action s; isReady := v; data := data s;
     dataState := dataState s; annotationsState := annotationsState s;
     importedAnnotations := importedAnnotations s; error := error s |}.

Definition set_action (v : option Action) (s : State) : State :=
  {| action := v; isReady := isReady s; data := data s;
     dataState := dataState s; annotationsState := annotationsState s;
     importedAnnotations := importedAnnotations s; error := error s |}.

Definition readerReducer (state : State) (a : Action) : State :=
  match a with
  | BEGIN_FETCH_DATA => set_dataState FETCHING state
  | COMPLETE_FETCH_DATA d => set_data (Some d) (set_dataState FETCHED state)
  | ERROR_FETCH_DATA e => set_error (Some e) (set_dataState UNFETCHED state)
  | BEGIN_IMPORT_ANNOTATIONS => set_annotationsState IMPORTING state
  | COMPLETE_IMPORT_ANNOTATIONS l =>
      set_importedAnnotations l (set_annotationsState IMPORTED state)
  | ERROR_IMPORT_ANNOTATIONS e =>
      set_error (Some e) (set_annotationsState IMPORTED state)
  | SKIP_IMPORT_ANNOTATIONS => set_annotationsState IMPORTED state
  | READY => set_isReady true state
  | ROTATE_PAGES _ _ => set_action (Some a) state
  | ROTATING_PAGES => set_action None state
  | ROTATED_PAGES d => set_data (Some d) (set_action None state)
  | OTHER _ => state
  end.

(** React applies the actions queued by [dispatchState] in order. *)
Definition reduceAll (s : State) (acts : list Action) : State :=
  fold_left readerReducer acts s.

(* ===================================================================== *)
(** ** Calls to collaborators, and the monad that records them *)
(* ===================================================================== *)

(** The store actions this code creates (imported from [../actions] and
    [../constants/actions]); only their arguments matter here. *)
Inductive StoreAction : Type :=
| tryGetAttachmentURL (attachmentKey : option string)
| patchAttachment (itemKey : string) (newFile : Buffer) (patch : Payload)
| uploadAttachment (itemKey : string) (fileName : string) (file : Buffer)
| ERROR_PROCESSING_ANNOTATIONS (error : string).

(** What the diff-worker client posts to its worker. *)
Inductive ClientMessage : Type :=
| LOAD (oldFile newFile : Buffer)
| DIFF.

(** What the diff worker posts back: [[command, payload]]. *)
Inductive WorkerCommand : Type :=
| W_READY
| W_DIFF_COMPLETE
| W_DIFF_ERROR
| W_LOG
| W_OTHER (command : string).

Definition WorkerMessage : Type := (WorkerCommand * Payload)%type.

Inductive Effect : Type :=
| DispatchState (a : Action)                  (* dispatchState(a) *)
| Dispatch (a : StoreAction)                  (* dispatch(a) *)
| Fetch (url : option string)                 (* fetch(url) ... arrayBuffer() *)
| PdfWorkerImport (buf : option Buffer)       (* pdfWorker.import(buf) *)
| PdfWorkerRotatePages (buf : Buffer) (pageIndexes : list Z) (degrees : Z)
                       (flag : bool)          (* pdfWorker.rotatePages(...) *)
| CallRotatePages (oldBuf : option Buffer) (pageIndexes : list Z)
                  (degrees : Z)               (* rotatePages(...) *)
| ReaderFreeze                                (* reader.current.freeze() *)
| ReaderReload (buf : Buffer) (baseURI : option string)
| ReaderUnfreeze
| ReaderSetAnnotations (annotations : option (list Json))
| CreateReader (buf : Buffer) (annotations : list Json)
| NewDiffWorker                               (* new DiffWorker() *)
| WorkerPostMessage (m : ClientMessage)       (* dataWorker.postMessage(m) *)
| ConsoleWarn (p : Payload)
| ConsoleError (e : JsError).

(** A computation takes the next free buffer identity and returns its
    value, the calls it made, in order, and the next free identity. *)
Definition M (A : Type) : Type := nat -> (A * list Effect * nat).

Definition ret {A : Type} (a : A) : M A := fun n => (a, [], n).

Definition bind {A B : Type} (m : M A) (f : A -> M B) : M B :=
  fun n =>
    let '(a, t1, n1) := m n in
    let '(b, t2, n2) := f a n1 in
    (b, t1 ++ t2, n2).

Declare Scope js_scope.
Delimit Scope js_scope with js.
Notation "x <- c1 ;; c2" := (bind c1 (fun x => c2))
  (at level 61, c1 at next level, right associativity) : js_scope.
Notation "c1 ;; c2" := (bind c1 (fun _ => c2))
  (at level 61, right associativity) : js_scope.
Local Open Scope js_scope.

Definition emit (e : Effect) : M unit := fun n => (tt, [e], n).

Definition value_of {A : Type} (r : A * list Effect * nat) : A := fst (fst r).
Definition calls_of {A : Type} (r : A * list Effect * nat) : list Effect :=
  snd (fst r).
Definition next_of {A : Type} (r : A * list Effect * nat) : nat := snd r.

(** [structuredClone(data)] and [data.slice(0)] both make a new object
    with the same bytes. *)
Definition structuredClone (b : Buffer) : M Buffer :=
  fun n => ({| buf_id := n; buf_bytes := buf_bytes b |}, [], S n).

Definition slice0 (b : Buffer) : M Buffer :=
  fun n => ({| buf_id := n; buf_bytes := buf_bytes b |}, [], S n).

(** [cloneData] (line 40); [hasStructuredClone] is
    [typeof structuredClone === 'function']. *)
Definition cloneData (hasStructuredClone : bool) (b : Buffer) : M Buffer :=
  if hasStructuredClone then structuredClone b else slice0 b.

(** The actions a trace hands to [dispatchState], and the store actions
    it hands to [dispatch]. *)
Fixpoint dispatchedState (t : list Effect) : list Action :=
  match t with
  | [] => []
  | DispatchState a :: t' => a :: dispatchedState t'
  | _ :: t' => dispatchedState t'
  end.

Fixpoint dispatched (t : list Effect) : list StoreAction :=
  match t with
  | [] => []
  | Dispatch a :: t' => a :: dispatched t'
  | _ :: t' => dispatched t'
  end.

Fixpoint posted (t : list Effect) : list ClientMessage :=
  match t with
  | [] => []
  | WorkerPostMessage m :: t' => m :: posted t'
  | _ :: t' => posted t'
  end.

(* ===================================================================== *)
(** ** The diff-worker client (reader.jsx, lines 42-64) *)
(* ===================================================================== *)

(** [resolve] and [reject] of a promise: only the first call settles it. *)
Definition resolve {A E : Type} (p : Promise A E) (v : A) : Promise A E :=
  match p with
  | Pending => Fulfilled v
  | _ => p
  end.

Definition reject {A E : Type} (p : Promise A E) (e : E) : Promise A E :=
  match p with
  | Pending => Rejected e
  | _ => p
  end.

(** The listener of line 46, on one message; the promise is threaded. *)
Definition onMessage (p : Promise Payload Payload) (ev : WorkerMessage)
  : M (Promise Payload Payload) :=
  let '(command, payload) := ev in
  match command with
  | W_READY => emit (WorkerPostMessage DIFF) ;; ret p
  | W_DIFF_COMPLETE => ret (resolve p payload)
  | W_DIFF_ERROR => ret (reject p payload)
  | W_LOG => emit (ConsoleWarn payload) ;; ret p
  | W_OTHER _ => ret p
  end.

Fixpoint onMessages (p : Promise Payload Payload) (evs : list WorkerMessage)
  : M (Promise Payload Payload) :=
  match evs with
  | [] => ret p
  | ev :: evs' => p' <- onMessage p ev ;; onMessages p' evs'
  end.

(** The executor up to [addEventListener]: the worker is created and
    LOAD is posted with a clone of each file. *)
Definition computeDiff_start (sc : bool) (oldFile newFile : Buffer) : M unit :=
  emit NewDiffWorker ;;
  o <- cloneData sc oldFile ;;
  n <- cloneData sc newFile ;;
  emit (WorkerPostMessage (LOAD o n)).

(** [computeDiffUsingWorker(oldFile, newFile)], given the messages [evs]
    that the worker sends during the session; the value is the state of
    the returned promise once they have been handled. *)
Definition computeDiffUsingWorker (sc : bool) (oldFile newFile : Buffer)
  (evs : list WorkerMessage) : M (Promise Payload Payload) :=
  computeDiff_start sc oldFile newFile ;;
  onMessages Pending evs.

(** The state of the promise after the listener has handled [evs], as a
    function of the messages alone. *)
Fixpoint diffOutcome (p : Promise Payload Payload) (evs : list WorkerMessage)
  : Promise Payload Payload :=
  match evs with
  | [] => p
  | (W_DIFF_COMPLETE, payload) :: evs' => diffOutcome (resolve p payload) evs'
  | (W_DIFF_ERROR, payload) :: evs' => diffOutcome (reject p payload) evs'
  | _ :: evs' => diffOutcome p evs'
  end.

Definition isTerminal (ev : WorkerMessage) : bool :=
  match fst ev with
  | W_DIFF_COMPLETE | W_DIFF_ERROR => true
  | _ => false
  end.

Definition isLog (ev : WorkerMessage) : bool :=
  match fst ev with
  | W_LOG => true
  | _ => false
  end.

Fixpoint countReady (evs : list WorkerMessage) : nat :=
  match evs with
  | [] => O
  | (W_READY, _) :: evs' => S (countReady evs')
  | _ :: evs' => countReady evs'
  end.

(* ===================================================================== *)
(** ** The [Reader] component (reader.jsx, lines 133-457) *)
(* ===================================================================== *)

(** A computation that may throw. *)
Inductive Result (A : Type) : Type :=
| Ok (value : A)
| Throw (e : JsError).

Arguments Ok {A} value.
Arguments Throw {A} e.

(** What one render reads from the store, from hooks and from the
    runtime.  Selectors with a default ([?? false], [?? 0]) are given
    after the default has been applied; [usePrevious] yields [undefined]
    ([None]) on the first render. *)
Record Render : Type := mkRender {
  hasStructuredClone : bool;
  attachmentKey : option string;
  attachmentItem : option Item;
  url : option string;
  timestamp : Z;
  dateNow : Z;                                  (* Date.now() *)
  isFetchingUrl : bool;
  isFetched : bool;
  isFetchingUserLibrarySettings : option bool;
  annotations : list Item;
  prevAnnotations : option (list Item);
  isBusy : bool;
  wasBusy : option bool
}.

(** JavaScript truthiness of the values tested in this file. *)
Definition truthy_string (s : option string) : bool :=
  match s with
  | Some s' => negb (String.eqb s' "")
  | None => false
  end.

Definition truthy_bool (b : option bool) : bool :=
  match b with
  | Some b' => b'
  | None => false
  end.

Definition truthy_object {A : Type} (o : option A) : bool :=
  match o with
  | Some _ => true
  | None => false
  end.

(** Line 191. *)
Definition urlIsFresh (r : Render) : bool :=
  truthy_string (url r) && (dateNow r - timestamp r <? 60000).

(** Lines 355-359: fetch attachment URL. *)
Definition fetchUrlEffect (r : Render) : M unit :=
  if negb (urlIsFresh r) && negb (isFetchingUrl r)
  then emit (Dispatch (tryGetAttachmentURL (attachmentKey r)))
  else ret tt.

(** Lines 362-374: fetch attachment binary data, up to the first [await]. *)
Definition fetchDataEffect (r : Render) (state : State) : M unit :=
  if urlIsFresh r && (dataState state =? UNFETCHED)
  then emit (DispatchState BEGIN_FETCH_DATA) ;; emit (Fetch (url r))
  else ret tt.

(** The rest of the async body, once [fetch(url)...arrayBuffer()]
    settles. *)
Definition fetchDataSettled (res : Result Buffer) : M unit :=
  match res with
  | Ok d => emit (DispatchState (COMPLETE_FETCH_DATA d))
  | Throw e => emit (DispatchState (ERROR_FETCH_DATA e))
  end.

(** Lines 377-397: import external annotations, up to the first [await].
    With [state.data] null, [cloneData] returns null under
    [structuredClone] and throws on [null.slice] otherwise, inside the
    [try]. *)
Definition importEffect (r : Render) (state : State) : M unit :=
  match attachmentItem r with
  | Some item =>
      if (dataState state =? FETCHED) && (annotationsState state =? NOT_IMPORTED)
      then
        emit (DispatchState BEGIN_IMPORT_ANNOTATIONS) ;;
        if negb (String.eqb (contentType item) "application/pdf")
        then emit (DispatchState SKIP_IMPORT_ANNOTATIONS)
        else
          match data state with
          | Some d =>
              clonedData <- cloneData (hasStructuredClone r) d ;;
              emit (PdfWorkerImport (Some clonedData))
          | None =>
              if hasStructuredClone r
              then emit (PdfWorkerImport None)
              else emit (DispatchState (ERROR_IMPORT_ANNOTATIONS "TypeError"))
          end
      else ret tt
  | None => ret tt
  end.

(** The rest of the [try] block, once
    [(await pdfWorker.import(clonedData)).map(...)] has produced the list
    or thrown. *)
Definition importSettled (res : Result (list Json)) : M unit :=
  match res with
  | Ok l => emit (DispatchState (COMPLETE_IMPORT_ANNOTATIONS l))
  | Throw e => emit (DispatchState (ERROR_IMPORT_ANNOTATIONS e))
  end.

(** The test of line 400. *)
Definition readyGuard (r : Render) (state : State) : bool :=
  negb (isReady state) && isFetched r && truthy_object (data state)
  && (annotationsState state =? IMPORTED)
  && negb (truthy_bool (isFetchingUserLibrarySettings r)).

(** Lines 399-403. *)
Definition readyEffect (r : Render) (state : State) : M unit :=
  if readyGuard r state then emit (DispatchState READY) else ret tt.

(** [onRotatePages] of the viewer (lines 323-325). *)
Definition onRotatePages (pageIndexes : list Z) (degrees : Z) : M unit :=
  emit (DispatchState (ROTATE_PAGES pageIndexes degrees)).

(** Lines 431-436. *)
Definition rotateEffect (state : State) : M unit :=
  match action state with
  | Some (ROTATE_PAGES pageIndexes degrees) =>
      if isReady state
      then emit (DispatchState ROTATING_PAGES) ;;
           emit (CallRotatePages (data state) pageIndexes degrees)
      else ret tt
  | _ => ret tt
  end.

(** [rotatePages] (lines 229-243) in the closure of render [r], given how
    [pdfWorker.rotatePages] settles ([rotated]) and what the diff worker
    sends ([evs]).  An [await] on a promise that rejects outside the [try]
    or never settles ends the trace.  [attachmentItem.key] on an undefined
    item throws inside the [try] and again inside the [catch].  [dispatch]
    itself returns without throwing: the thunk it is given runs in the
    store, and its promise is not awaited. *)
Definition rotatePages (r : Render) (oldBuf : Buffer) (pageIndexes : list Z)
  (degrees : Z) (rotated : Promise Buffer JsError) (evs : list WorkerMessage)
  : M unit :=
  let sc := hasStructuredClone r in
  emit ReaderFreeze ;;
  arg <- cloneData sc oldBuf ;;
  emit (PdfWorkerRotatePages arg pageIndexes degrees true) ;;
  match rotated with
  | Fulfilled modifiedBuf =>
      shown <- cloneData sc modifiedBuf ;;
      emit (ReaderReload shown (url r)) ;;
      emit ReaderUnfreeze ;;
      kept <- cloneData sc modifiedBuf ;;
      emit (DispatchState (ROTATED_PAGES kept)) ;;
      diff <- computeDiffUsingWorker sc oldBuf modifiedBuf evs ;;
      match diff, attachmentItem r with
      | Fulfilled d, Some item =>
          emit (Dispatch (patchAttachment (key item) modifiedBuf d))
      | Rejected _, Some item =>
          file <- cloneData sc modifiedBuf ;;
          emit (Dispatch (uploadAttachment (key item) (filename item) file))
      | _, _ => ret tt
      end
  | _ => ret tt
  end.

(* ===================================================================== *)
(** ** One mount of the component *)
(* ===================================================================== *)

(** The asynchronous operations a trace starts. *)
Inductive Async : Type := AFetch | AImport | ARotate.

Definition Async_eqb (x y : Async) : bool :=
  match x, y with
  | AFetch, AFetch | AImport, AImport | ARotate, ARotate => true
  | _, _ => false
  end.

Fixpoint started (t : list Effect) : list Async :=
  match t with
  | [] => []
  | Fetch _ :: t' => AFetch :: started t'
  | PdfWorkerImport _ :: t' => AImport :: started t'
  | CallRotatePages _ _ _ :: t' => ARotate :: started t'
  | _ :: t' => started t'
  end.

Fixpoint count_async (x : Async) (l : list Async) : nat :=
  match l with
  | [] => O
  | y :: l' => (if Async_eqb x y then 1 else 0) + count_async x l'
  end.

Fixpoint remove_async (x : Async) (l : list Async) : list Async :=
  match l with
  | [] => []
  | y :: l' => if Async_eqb x y then l' else y :: remove_async x l'
  end.

(** The mounted component between two events: the reducer state, the
    operations in flight, and the next free buffer identity. *)
Record Mount : Type := mkMount {
  state : State;
  inflight : list Async;
  nextId : nat
}.

Definition mounted : Mount :=
  {| state := initialState; inflight := []; nextId := O |}.

(** Which effects React runs at a commit: those with a changed
    dependency.  The model leaves the choice to the event, which covers
    every history of dependencies.  Only the effects that call
    [dispatchState] take part; the others (item details, child items, URL,
    redirects, annotation delta) talk to the store and to the viewer and
    leave the reducer state alone. *)
Record Runs : Type := mkRuns {
  runFetchData : bool;
  runImport : bool;
  runReady : bool;
  runRotate : bool
}.

Definition when (b : bool) (m : M unit) : M unit := if b then m else ret tt.

(** The effects of one commit that reach [dispatchState], in source
    order; all of them read the state of that render. *)
Definition commitEffects (r : Render) (runs : Runs) (s : State) : M unit :=
  when (runFetchData runs) (fetchDataEffect r s) ;;
  when (runImport runs) (importEffect r s) ;;
  when (runReady runs) (readyEffect r s) ;;
  when (runRotate runs) (rotateEffect s).

Inductive Event : Type :=
| Commit (r : Render) (runs : Runs)
| FetchSettled (res : Result Buffer)
| ImportSettled (res : Result (list Json))
| ViewerRotatePages (pageIndexes : list Z) (degrees : Z)
| PagesRotated (kept : Buffer).

(** The computation an event runs; [None] when the event cannot happen
    (nothing of its kind is in flight, or the viewer does not exist yet:
    the iframe is rendered only once [isReady] holds). *)
Definition handler (m : Mount) (e : Event) : option (M unit) :=
  match e with
  | Commit r runs => Some (commitEffects r runs (state m))
  | FetchSettled res =>
      if existsb (Async_eqb AFetch) (inflight m)
      then Some (fetchDataSettled res) else None
  | ImportSettled res =>
      if existsb (Async_eqb AImport) (inflight m)
      then Some (importSettled res) else None
  | ViewerRotatePages pageIndexes degrees =>
      if isReady (state m)
      then Some (onRotatePages pageIndexes degrees) else None
  | PagesRotated kept =>
      if existsb (Async_eqb ARotate) (inflight m)
      then Some (emit (DispatchState (ROTATED_PAGES kept))) else None
  end.

Definition settles (e : Event) : list Async :=
  match e with
  | FetchSettled _ => [AFetch]
  | ImportSettled _ => [AImport]
  | PagesRotated _ => [ARotate]
  | _ => []
  end.

Definition step (m : Mount) (e : Event) : Mount :=
  match handler m e with
  | Some body =>
      let '(_, t, n) := body (nextId m) in
      {| state := reduceAll (state m) (dispatchedState t);
         inflight :=
           fold_left (fun l a => remove_async a l) (settles e) (inflight m)
           ++ started t;
         nextId := n |}
  | None => m
  end.

Definition run (m : Mount) (evs : list Event) : Mount := fold_left step evs m.

(** The values of [isReady] along a run, the starting one first. *)
Fixpoint readiness (m : Mount) (evs : list Event) : list bool :=
  match evs with
  | [] => [isReady (state m)]
  | e :: evs' => isReady (state m) :: readiness (step m e) evs'
  end.

(** How many times a sequence of flags goes from false to true, and from
    true to false. *)
Fixpoint rises (l : list bool) : nat :=
  match l with
  | false :: ((true :: _) as l') => S (rises l')
  | _ :: l' => rises l'
  | [] => O
  end.

Fixpoint falls (l : list bool) : nat :=
  match l with
  | true :: ((false :: _) as l') => S (falls l')
  | _ :: l' => falls l'
  | [] => O
  end.

(** The actions an event hands to [dispatchState]. *)
Definition actionsOf (m : Mount) (e : Event) : list Action :=
  match handler m e with
  | Some body => dispatchedState (calls_of (body (nextId m)))
  | None => []
  end.

Definition is_READY (a : Action) : bool :=
  match a with
  | READY => true
  | _ => false
  end.

(** What holds of the mounted component after any sequence of events: a
    fetch is in flight exactly while [dataState] is FETCHING, an import
    exactly while [annotationsState] is IMPORTING (so at most one of
    each); nothing is imported before IMPORTED; the data is present once
    fetched, once the import has begun, and once ready. *)
Definition mountInvariant (m : Mount) : Prop :=
  count_async AFetch (inflight m)
  = (if dataState (state m) =? FETCHING then 1%nat else 0%nat)
  /\ count_async AImport (inflight m)
     = (if annotationsState (state m) =? IMPORTING then 1%nat else 0%nat)
  /\ (annotationsState (state m) <> IMPORTED ->
      importedAnnotations (state m) = [])
  /\ (dataState (state m) = FETCHED -> data (state m) <> None)
  /\ (annotationsState (state m) <> NOT_IMPORTED -> data (state m) <> None)
  /\ (isReady (state m) = true -> data (state m) <> None).

(* ===================================================================== *)
(** ** Annotations: processing and the delta pushed to the viewer *)
(* ===================================================================== *)

Section Annotations.

(** [deepEqual] of the deep-equal package, on two items. *)
Variable deepEqual : Item -> Item -> bool.

(** [annotationItemToJSON] of [../common/annotations.js] applied to an
    annotation with the options of the current render; it may throw. *)
Variable annotationItemToJSON : Item -> Result Json.

(** [deepEqual(a, b)] where [b] may be [undefined]: an item never equals
    [undefined]. *)
Definition deepEqualOpt (a : Item) (b : option Item) : bool :=
  match b with
  | Some b' => deepEqual a b'
  | None => false
  end.

(** [deepEqual] on two arrays of items: same length, equal elementwise. *)
Fixpoint deepEqualArray (l1 l2 : list Item) : bool :=
  match l1, l2 with
  | [], [] => true
  | a :: l1', b :: l2' => deepEqual a b && deepEqualArray l1' l2'
  | _, _ => false
  end.

Definition deepEqualArrayOpt (l1 : option (list Item)) (l2 : list Item) : bool :=
  match l1 with
  | Some l1' => deepEqualArray l1' l2
  | None => false
  end.

(** [annotations.map(f)] where [f] may throw: the first throw ends it. *)
Fixpoint tryMap {A B : Type} (f : A -> Result B) (l : list A) : Result (list B) :=
  match l with
  | [] => Ok []
  | a :: l' =>
      match f a with
      | Ok b =>
          match tryMap f l' with
          | Ok bs => Ok (b :: bs)
          | Throw e => Throw e
          end
      | Throw e => Throw e
      end
  end.

(** [getProcessedAnnotations] (lines 207-227).  The [catch] block has no
    [return]: the value is then [undefined], here [None]. *)
Definition getProcessedAnnotations (annotations : list Item)
  : M (option (list Json)) :=
  match tryMap annotationItemToJSON annotations with
  | Ok processed => ret (Some processed)
  | Throw e =>
      emit (Dispatch (ERROR_PROCESSING_ANNOTATIONS "Failed to process annotations")) ;;
      emit (ConsoleError e) ;;
      ret None
  end.

(** [prevAnnotations.find(pa => pa.key === a.key)]. *)
Definition findByKey (prev : list Item) (a : Item) : option Item :=
  find (fun pa => String.eqb (key pa) (key a)) prev.

(** Lines 424-426. *)
Definition changedAnnotations (prev current : list Item) : list Item :=
  filter (fun a => negb (deepEqualOpt a (findByKey prev a))) current.

(** The filter of lines 424-426 on the value of [usePrevious]: the
    callback reads [prevAnnotations.find], which throws on [undefined];
    on an empty array the callback is not called. *)
Definition changedAnnotationsOpt (prev : option (list Item))
  (current : list Item) : Result (list Item) :=
  match prev, current with
  | Some prev', _ => Ok (changedAnnotations prev' current)
  | None, [] => Ok []
  | None, _ :: _ => Throw "TypeError"
  end.

(** Lines 419-429.  [readerCurrent] says whether [reader.current] holds a
    viewer: the ref is null until [handleIframeLoaded] has created one,
    and [reader.current.setAnnotations] then throws before its argument
    is evaluated, so before [getProcessedAnnotations] is called. *)
Definition annotationsEffect (r : Render) (s : State) (readerCurrent : bool)
  : M (Result unit) :=
  if isReady s
     && (negb (deepEqualArrayOpt (prevAnnotations r) (annotations r))
         || (truthy_bool (wasBusy r) && negb (isBusy r)))
  then
    if isBusy r then ret (Ok tt)
    else
      match changedAnnotationsOpt (prevAnnotations r) (annotations r) with
      | Ok changedAnnotations' =>
          if readerCurrent
          then
            processed <- getProcessedAnnotations changedAnnotations' ;;
            emit (ReaderSetAnnotations processed) ;;
            ret (Ok tt)
          else ret (Throw "TypeError")
      | Throw e => ret (Throw e)
      end
  else ret (Ok tt).

(** [new Uint8Array(null)]: a new, empty array. *)
Definition emptyArray : M Buffer :=
  fun n => ({| buf_id := n; buf_bytes := [] |}, [], S n).

(** [handleIframeLoaded] (lines 270-329), as far as the annotations and
    the buffer go.  [attachmentItem.contentType] throws on an undefined
    item; [cloneData(null)] is null under [structuredClone] and throws
    otherwise; the argument of [createReader] spreads
    [processedAnnotations], which throws when it is [undefined]. *)
Definition handleIframeLoaded (r : Render) (s : State) : M (Result unit) :=
  processedAnnotations <- getProcessedAnnotations (annotations r) ;;
  match attachmentItem r with
  | Some _ =>
      cloned <-
        match data s with
        | Some d => c <- cloneData (hasStructuredClone r) d ;; ret (Ok c)
        | None =>
            if hasStructuredClone r
            then c <- emptyArray ;; ret (Ok c)
            else ret (Throw "TypeError")
        end ;;
      match cloned, processedAnnotations with
      | Ok buf, Some processed =>
          emit (CreateReader buf (processed ++ importedAnnotations s)) ;;
          ret (Ok tt)
      | Ok _, None => ret (Throw "TypeError")
      | Throw e, _ => ret (Throw e)
      end
  | None => ret (Throw "TypeError")
  end.

(** The delta as the specification words it: the items of [current] whose
    key occurs in [prev] with different content, and those whose key does
    not occur in [prev]. *)
Definition keyOccursChanged (prev : list Item) (a : Item) : bool :=
  existsb (fun p => String.eqb (key p) (key a) && negb (deepEqual a p)) prev.

Definition keyAbsent (prev : list Item) (a : Item) : bool :=
  negb (existsb (fun p => String.eqb (key p) (key a)) prev).

Definition deltaSpec (prev current : list Item) : list Item :=
  filter (fun a => keyOccursChanged prev a || keyAbsent prev a) current.

End Annotations.

(* ===================================================================== *)
(** ** The export dialog (export-modal.jsx) *)
(* ===================================================================== *)

Module ExportModal.

(** An entry of [exportFormats] ([../../constants/export-formats]). *)
Record Format : Type := mkFormat {
  key : string;
  label : string;
  extension : option string
}.

(** [this.state]. *)
Record ModalState : Type := mkModalState {
  isBusy : bool;
  format : string
}.

(** The calls [handleExport] makes on its props and on file-saver. *)
Inductive Call : Type :=
| ExportItems (itemKeys : list string) (format : string)
| SaveAs (exportData : list byte) (fileName : string)
| ToggleModal (open : bool)                  (* toggleModal(null, open) *)
| OnSelectModeToggle (on : bool).

(** [parts.join(sep)]. *)
Fixpoint join (sep : string) (parts : list string) : string :=
  match parts with
  | [] => ""
  | [p] => p
  | p :: parts' => (p ++ sep ++ join sep parts')%string
  end.

(** [parts.filter(Boolean)] on strings that may be undefined. *)
Fixpoint filterBoolean (parts : list (option string)) : list string :=
  match parts with
  | [] => []
  | Some p :: parts' =>
      if truthy_string (Some p) then p :: filterBoolean parts'
      else filterBoolean parts'
  | None :: parts' => filterBoolean parts'
  end.


Section WithFormats.

(** The imported table; the module reads [exportFormats[0].key] when it
    loads, so the table has a first entry. *)
Variable firstFormat : Format.
Variable moreFormats : list Format.

Definition exportFormats : list Format := firstFormat :: moreFormats.

(** Lines 14-17. *)
Definition defaultState : ModalState :=
  {| isBusy := false; format := key firstFormat |}.

(** Lines 23-28. *)
Definition componentDidUpdate (wasOpen isOpen : bool) (st : ModalState)
  : ModalState :=
  if wasOpen && negb isOpen then defaultState else st.


(** [render] shows the Export button only while not busy (line 66). *)
Definition exportButtonShown (st : ModalState) : bool := negb (isBusy st).

(** Line 40: the file name for a format key; [find] may return
    [undefined], whose [.extension] throws. *)
Definition fileNameFor (format' : string) : Result string :=
  match find (fun f => String.eqb (key f) format') exportFormats with
  | Some f => Ok (join "." (filterBoolean [Some "export-data"; extension f]))
  | None => Throw "TypeError"
  end.

(** [handleExport] (lines 36-49) up to its [await]: the state it leaves,
    the call it awaits, and the file name it has computed. *)
Definition handleExport_begin (itemKeys : list string) (st : ModalState)
  : Result (ModalState * list Call * string) :=
  match fileNameFor (format st) with
  | Ok fileName =>
      Ok ({| isBusy := true; format := format st |},
          [ExportItems itemKeys (format st)], fileName)
  | Throw e => Throw e
  end.

(** [handleExport] after its [await], on the state of that moment.  When
    [exportItems] rejects or never settles nothing more runs. *)
Definition handleExport_resume (st : ModalState) (fileName : string)
  (exported : Promise (list byte) JsError) : ModalState * list Call :=
  match exported with
  | Fulfilled exportData =>
      ({| isBusy := false; format := format st |},
       [SaveAs exportData fileName; ToggleModal false; OnSelectModeToggle false])
  | _ => (st, [])
  end.

End WithFormats.

End ExportModal.

(* ===================================================================== *)
(** ** The export dialog over time *)
(* ===================================================================== *)

Section ExportDialog.

Import ExportModal.

Variable firstFormat : Format.
Variable moreFormats : list Format.
Variable itemKeys : list string.







End ExportDialog.

(* ===================================================================== *)
(** ** Concrete values used to run the definitions *)
(* ===================================================================== *)

Definition samplePdf : Item :=
  {| key := "ATTACH01"; itemType := "attachment"; deleted := false;
     contentType := "application/pdf"; filename := "paper.pdf";
     properties := [] |}.

Definition sampleHtml : Item :=
  {| key := "ATTACH02"; itemType := "attachment"; deleted := false;
     contentType := "text/html"; filename := "page.html";
     properties := [] |}.

(** A render at time [now] of an attachment whose URL was fetched at
    time 1000, with its children fetched and nothing else in flight. *)
Definition sampleRender (item : Item) (now : Z) : Render :=
  {| hasStructuredClone := true;
     attachmentKey := Some (key item);
     attachmentItem := Some item;
     url := Some "https://files.example/ATTACH";
     timestamp := 1000;
     dateNow := now;
     isFetchingUrl := false;
     isFetched := true;
     isFetchingUserLibrarySettings := Some false;
     annotations := [];
     prevAnnotations := Some [];
     isBusy := false;
     wasBusy := Some false |}.

Definition allEffects : Runs :=
  {| runFetchData := true; runImport := true; runReady := true;
     runRotate := true |}.

Definition sampleOldBuf : Buffer :=
  {| buf_id := 0%nat; buf_bytes := [x25; x50; x44; x46; x01] |}.

Definition sampleModifiedBuf : Buffer :=
  {| buf_id := 1%nat; buf_bytes := [x25; x50; x44; x46; x02] |}.

(** A session of the diff worker that logs, gets ready and completes. *)
Definition sampleDiffSession : list WorkerMessage :=
  [(W_LOG, PayloadText "loading"); (W_READY, PayloadUndefined);
   (W_DIFF_COMPLETE, PayloadBytes [x02])].

(** Structural equality of items, an instance of [deepEqual]. *)
Fixpoint properties_eqb (l1 l2 : list (string * string)) : bool :=
  match l1, l2 with
  | [], [] => true
  | (k1, v1) :: l1', (k2, v2) :: l2' =>
      String.eqb k1 k2 && String.eqb v1 v2 && properties_eqb l1' l2'
  | _, _ => false
  end.

Definition item_eqb (a b : Item) : bool :=
  String.eqb (key a) (key b) && String.eqb (itemType a) (itemType b)
  && Bool.eqb (deleted a) (deleted b)
  && String.eqb (contentType a) (contentType b)
  && String.eqb (filename a) (filename b)
  && properties_eqb (properties a) (properties b).

(** A converter that rejects an annotation without an [annotationType]
    property, an instance of [annotationItemToJSON]. *)
Definition sampleToJSON (a : Item) : Result Json :=
  if existsb (fun kv => String.eqb (fst kv) "annotationType") (properties a)
  then Ok (("id", key a) :: properties a)
  else Throw "Error: unknown annotation type".

Definition sampleAnnotation (k comment : string) : Item :=
  {| key := k; itemType := "annotation"; deleted := false;
     contentType := ""; filename := "";
     properties := [("annotationType", "highlight");
                    ("annotationComment", comment)] |}.

Definition brokenAnnotation (k : string) : Item :=
  {| key := k; itemType := "annotation"; deleted := false;
     contentType := ""; filename := ""; properties := [] |}.

Definition samplePrev : list Item :=
  [sampleAnnotation "ANNOT001" "first"; sampleAnnotation "ANNOT002" "second"].

Definition sampleCurrent : list Item :=
  [sampleAnnotation "ANNOT001" "first, edited";
   sampleAnnotation "ANNOT002" "second";
   sampleAnnotation "ANNOT003" "third"].



(** A render of the PDF at time [now] with two live annotations. *)
Definition sampleRenderWithAnnotations (now : Z) : Render :=
  {| hasStructuredClone := true;
     attachmentKey := Some "ATTACH01";
     attachmentItem := Some samplePdf;
     url := Some "https://files.example/ATTACH";
     timestamp := 1000;
     dateNow := now;
     isFetchingUrl := false;
     isFetched := true;
     isFetchingUserLibrarySettings := Some false;
     annotations := [sampleAnnotation "ANNOT001" "first";
                     sampleAnnotation "ANNOT002" "second"];
     prevAnnotations := Some [];
     isBusy := false;
     wasBusy := Some false |}.

(** The buffers a store action is created with. *)
Definition buffersOf (a : StoreAction) : list Buffer :=
  match a with
  | patchAttachment _ newFile _ => [newFile]
  | uploadAttachment _ _ file => [file]
  | _ => []
  end.

(* ===================================================================== *)
(** ** Further parts of the [Reader] component *)
(* ===================================================================== *)

(** The calls an event of the mount makes, and those of a whole run. *)
Definition stepCalls (m : Mount) (e : Event) : list Effect :=
  match handler m e with
  | Some body => calls_of (body (nextId m))
  | None => []
  end.

Fixpoint runCalls (m : Mount) (evs : list Event) : list Effect :=
  match evs with
  | [] => []
  | e :: evs' => stepCalls m e ++ runCalls (step m e) evs'
  end.

(** The states between the events of a run, the starting one first. *)
Fixpoint statesAlong (m : Mount) (evs : list Event) : list State :=
  match evs with
  | [] => [state m]
  | e :: evs' => state m :: statesAlong (step m e) evs'
  end.

(** What the reducer fields hold beyond [mountInvariant]: the two
    lifecycle fields stay within their three constants, an import begins
    only on fetched data, and the reader is ready only once the
    annotations are IMPORTED. *)
Definition lifecycleInvariant (m : Mount) : Prop :=
  (dataState (state m) = UNFETCHED \/ dataState (state m) = FETCHING
   \/ dataState (state m) = FETCHED)
  /\ (annotationsState (state m) = NOT_IMPORTED
      \/ annotationsState (state m) = IMPORTING
      \/ annotationsState (state m) = IMPORTED)
  /\ (annotationsState (state m) <> NOT_IMPORTED ->
      dataState (state m) = FETCHED)
  /\ (isReady (state m) = true -> annotationsState (state m) = IMPORTED).

(** An event in whose render, if it is a commit, the URL is not fresh. *)
Definition staleEvent (e : Event) : bool :=
  match e with
  | Commit r _ => negb (urlIsFresh r)
  | _ => true
  end.

Fixpoint rotateCalls (t : list Effect)
  : list (option Buffer * list Z * Z) :=
  match t with
  | [] => []
  | CallRotatePages b p d :: t' => (b, p, d) :: rotateCalls t'
  | _ :: t' => rotateCalls t'
  end.

Definition isUnfreeze (e : Effect) : bool :=
  match e with
  | ReaderUnfreeze => true
  | _ => false
  end.

(** A JavaScript value of a view state or of a stored setting. *)
Inductive JsValue : Type :=
| VUndefined
| VNull
| VNumber (n : Z)
| VString (s : string).

(** An object given by its properties in the order they were written; a
    later property of the same name wins, an absent one reads as
    [undefined]. *)
Definition JsObject : Type := list (string * JsValue).


(** The other intents the component hands to [dispatch] or calls. *)
Inductive Intent : Type :=
| navigate (params : JsObject)
| fetchItemDetails (itemKey : string)
| fetchLibrarySettings (libraryKey : option string) (settingKey : string)
| updateLibrarySettings (settingKey : string) (value : JsValue)
                        (libraryKey : string)
| localStorageRemoveItem (name : string).

(** The selector of lines 139-147. *)
Definition attachmentKeySelector (currentAttachmentKey currentItemKey
  : option string) : option string :=
  if truthy_string currentAttachmentKey then currentAttachmentKey
  else if truthy_string currentItemKey then currentItemKey
  else None.

(** Lines 332-343: the effect of the first render.  [userLibraryKey] and
    [pageIndexSettingKey] (computed by [getLastPageIndexSettingKey] of
    [../common/item]) are given. *)
Definition firstRenderEffect (r : Render) (userLibraryKey : option string)
  (pageIndexSettingKey : string) : list Intent :=
  (if negb (truthy_string (attachmentKey r))
   then [navigate [("items", VNull); ("attachmentKey", VNull);
                   ("noteKey", VNull); ("view", VString "item-list")]]
   else [])
  ++ (match attachmentKey r with
      | Some k =>
          if truthy_string (attachmentKey r)
             && negb (truthy_object (attachmentItem r))
          then [fetchItemDetails k] else []
      | None => []
      end)
  ++ [localStorageRemoveItem "pdfjs.history";
      fetchLibrarySettings userLibraryKey pageIndexSettingKey].




(** The selector of line 149, given the value of the settings entry if
    there is one: [?? null]. *)
Definition locationValue (entryValue : option JsValue) : JsValue :=
  match entryValue with
  | Some VUndefined | None => VNull
  | Some v => v
  end.


(** Lines 193-195: the annotations among the children.  [keys] may be
    undefined; [allItems[childItemKey]] may be undefined, and then the
    filter throws on [item.deleted]. *)
Fixpoint filterAnnotations (items : list (option Item)) : Result (list Item) :=
  match items with
  | [] => Ok []
  | None :: _ => Throw "TypeError"
  | Some item :: items' =>
      match filterAnnotations items' with
      | Ok rest =>
          if negb (deleted item) && String.eqb (itemType item) "annotation"
          then Ok (item :: rest) else Ok rest
      | Throw e => Throw e
      end
  end.

Definition selectAnnotations (isFetched' : bool) (keys : option (list string))
  (allItems : string -> option Item) : Result (list Item) :=
  filterAnnotations
    (map allItems
       (match keys with
        | Some ks => if isFetched' then ks else []
        | None => []
        end)).

(** The test of the filter of line 195. *)
Definition isLiveAnnotation (item : Item) : bool :=
  negb (deleted item) && String.eqb (itemType item) "annotation".

(** A value of the tag-colour map of lines 208-210. *)
Record TagEntry : Type := mkTagEntry {
  tag : string;
  color : string;
  position : nat
}.

(** A JavaScript [Map] with string keys: its entries in insertion order,
    each key once. *)
Definition JsMap : Type := list (string * TagEntry).

Fixpoint mapSet (m : JsMap) (k : string) (v : TagEntry) : JsMap :=
  match m with
  | [] => [(k, v)]
  | (k', v') :: m' =>
      if String.eqb k' k then (k, v) :: m' else (k', v') :: mapSet m' k v
  end.

Fixpoint mapGet (m : JsMap) (k : string) : option TagEntry :=
  match m with
  | [] => None
  | (k', v) :: m' => if String.eqb k' k then Some v else mapGet m' k
  end.

(** [tagColors.map(({ name, color }, position) => [name, {...}])] from
    index [i] on, and [new Map(...)] of it added to [m]. *)
Fixpoint tagEntriesFrom (i : nat) (tagColors : list (string * string))
  : list (string * TagEntry) :=
  match tagColors with
  | [] => []
  | (name, c) :: rest =>
      (name, {| tag := name; color := c; position := i |})
      :: tagEntriesFrom (S i) rest
  end.

Definition mapOf (entries : list (string * TagEntry)) (m : JsMap) : JsMap :=
  fold_left (fun acc kv => mapSet acc (fst kv) (snd kv)) entries m.

Definition tagColorsMap (tagColors : list (string * string)) : JsMap :=
  mapOf (tagEntriesFrom O tagColors) [].

(** The last pair of [tagColors] with a name, and its index from [i]. *)
Fixpoint lastTagColor (i : nat) (tagColors : list (string * string))
  (name : string) : option TagEntry :=
  match tagColors with
  | [] => None
  | (n, c) :: rest =>
      match lastTagColor (S i) rest name with
      | Some e => Some e
      | None =>
          if String.eqb n name
          then Some {| tag := n; color := c; position := i |} else None
      end
  end.

(* ===================================================================== *)
(** * Properties *)
(* ===================================================================== *)

(** ** The reducer and the readiness flag *)

Lemma readerReducer_isReady (s : State) (a : Action) :
  isReady (readerReducer s a) = isReady s || is_READY a.
Proof.
  destruct a; simpl; try (rewrite orb_false_r; reflexivity).
  rewrite orb_true_r. reflexivity.
Qed.

Lemma reduceAll_isReady (acts : list Action) :
  forall s, isReady (reduceAll s acts) = isReady s || existsb is_READY acts.
Proof.
  unfold reduceAll.
  induction acts as [|a acts IH]; intros s; simpl.
  - rewrite orb_false_r. reflexivity.
  - rewrite IH, readerReducer_isReady, orb_assoc. reflexivity.
Qed.

Lemma dispatchedState_app (t1 t2 : list Effect) :
  dispatchedState (t1 ++ t2) = dispatchedState t1 ++ dispatchedState t2.
Proof.
  induction t1 as [|e t1 IH]; simpl; [reflexivity|].
  destruct e; simpl; rewrite ?IH; reflexivity.
Qed.

Lemma started_app (t1 t2 : list Effect) :
  started (t1 ++ t2) = started t1 ++ started t2.
Proof.
  induction t1 as [|e t1 IH]; simpl; [reflexivity|].
  destruct e; simpl; rewrite ?IH; reflexivity.
Qed.

(** *** What each effect of a commit does, case by case *)

Lemma fetchDataEffect_cases (r : Render) (s : State) (b : bool) (n : nat) :
  (b = true /\ urlIsFresh r = true /\ dataState s = UNFETCHED
   /\ when b (fetchDataEffect r s) n
      = (tt, [DispatchState BEGIN_FETCH_DATA; Fetch (url r)], n))
  \/ ((b = false \/ urlIsFresh r = false \/ dataState s <> UNFETCHED)
      /\ when b (fetchDataEffect r s) n = (tt, [], n)).
Proof.
  destruct b; simpl; [|right; auto].
  unfold fetchDataEffect.
  destruct (urlIsFresh r); simpl; [|right; auto].
  destruct (Z.eqb_spec (dataState s) UNFETCHED); [left|right]; auto.
Qed.

Lemma importEffect_cases (r : Render) (s : State) (b : bool) (n : nat) :
  (b = true /\ attachmentItem r <> None
   /\ dataState s = FETCHED /\ annotationsState s = NOT_IMPORTED
   /\ ((when b (importEffect r s) n
        = (tt, [DispatchState BEGIN_IMPORT_ANNOTATIONS;
                DispatchState SKIP_IMPORT_ANNOTATIONS], n))
       \/ (exists d, data s = Some d
           /\ when b (importEffect r s) n
              = (tt, [DispatchState BEGIN_IMPORT_ANNOTATIONS;
                      PdfWorkerImport
                        (Some {| buf_id := n; buf_bytes := buf_bytes d |})],
                 S n))
       \/ (data s = None
           /\ when b (importEffect r s) n
              = (tt, [DispatchState BEGIN_IMPORT_ANNOTATIONS;
                      PdfWorkerImport None], n))
       \/ (data s = None
           /\ when b (importEffect r s) n
              = (tt, [DispatchState BEGIN_IMPORT_ANNOTATIONS;
                      DispatchState (ERROR_IMPORT_ANNOTATIONS "TypeError")],
                 n))))
  \/ ((b = false \/ attachmentItem r = None
       \/ dataState s <> FETCHED \/ annotationsState s <> NOT_IMPORTED)
      /\ when b (importEffect r s) n = (tt, [], n)).
Proof.
  destruct b; simpl; [|right; auto].
  unfold importEffect.
  destruct (attachmentItem r) as [item|]; [|right; auto].
  destruct (Z.eqb_spec (dataState s) FETCHED) as [Hd|Hd]; simpl;
    [|right; auto].
  destruct (Z.eqb_spec (annotationsState s) NOT_IMPORTED) as [Ha|Ha]; simpl;
    [|right; auto].
  left. repeat (split; [congruence || assumption|]).
  destruct (String.eqb (contentType item) "application/pdf"); simpl;
    [|left; reflexivity].
  right.
  destruct (data s) as [d|].
  - left. exists d. split; [reflexivity|].
    unfold cloneData. destruct (hasStructuredClone r); reflexivity.
  - right. destruct (hasStructuredClone r); [left|right]; auto.
Qed.

Lemma readyEffect_cases (r : Render) (s : State) (b : bool) (n : nat) :
  (b = true /\ readyGuard r s = true
   /\ when b (readyEffect r s) n = (tt, [DispatchState READY], n))
  \/ ((b = false \/ readyGuard r s = false)
      /\ when b (readyEffect r s) n = (tt, [], n)).
Proof.
  destruct b; simpl; [|right; auto].
  unfold readyEffect. destruct (readyGuard r s); [left|right]; auto.
Qed.

Lemma rotateEffect_cases (s : State) (b : bool) (n : nat) :
  (exists pageIndexes degrees,
     b = true /\ isReady s = true
     /\ action s = Some (ROTATE_PAGES pageIndexes degrees)
     /\ when b (rotateEffect s) n
        = (tt, [DispatchState ROTATING_PAGES;
                CallRotatePages (data s) pageIndexes degrees], n))
  \/ when b (rotateEffect s) n = (tt, [], n).
Proof.
  destruct b; simpl; [|right; auto].
  unfold rotateEffect.
  destruct (action s) as [[]|]; try (right; reflexivity).
  destruct (isReady s) eqn:E; [left|right; reflexivity].
  eauto 10.
Qed.

(** The trace of a commit is the traces of its four effects, in order. *)
Lemma commitEffects_split (r : Render) (runs : Runs) (s : State) (n : nat) :
  exists t1 t2 t3 t4 n',
    when (runFetchData runs) (fetchDataEffect r s) n = (tt, t1, n)
    /\ when (runImport runs) (importEffect r s) n = (tt, t2, n')
    /\ when (runReady runs) (readyEffect r s) n' = (tt, t3, n')
    /\ when (runRotate runs) (rotateEffect s) n' = (tt, t4, n')
    /\ commitEffects r runs s n = (tt, t1 ++ t2 ++ t3 ++ t4, n').
Proof.
  destruct (fetchDataEffect_cases r s (runFetchData runs) n)
    as [(_ & _ & _ & E1)|(_ & E1)];
  destruct (importEffect_cases r s (runImport runs) n)
    as [(_ & _ & _ & _ & [E2|[(d & _ & E2)|[(_ & E2)|(_ & E2)]]])|(_ & E2)];
  match type of E2 with
  | _ = (_, _, ?k) =>
      destruct (readyEffect_cases r s (runReady runs) k)
        as [(_ & _ & E3)|(_ & E3)];
      destruct (rotateEffect_cases s (runRotate runs) k)
        as [(pi & dg & _ & _ & _ & E4)|E4]
  end;
  do 5 eexists;
  (split; [exact E1|]); (split; [exact E2|]); (split; [exact E3|]);
  (split; [exact E4|]);
  unfold commitEffects, bind; rewrite E1, E2, E3, E4; reflexivity.
Qed.

(** *** Readiness along a run *)

Lemma step_state (m : Mount) (e : Event) :
  state (step m e) = reduceAll (state m) (actionsOf m e).
Proof.
  unfold step, actionsOf. destruct (handler m e) as [body|]; [|reflexivity].
  destruct (body (nextId m)) as [[u t] n]. reflexivity.
Qed.

Lemma actionsOf_READY (m : Mount) (e : Event) :
  existsb is_READY (actionsOf m e) = true ->
  exists r runs, e = Commit r runs /\ runReady runs = true
                 /\ readyGuard r (state m) = true.
Proof.
  unfold actionsOf.
  destruct e as [r runs|res|res|pageIndexes degrees|kept]; simpl.
  - destruct (commitEffects_split r runs (state m) (nextId m))
      as (t1 & t2 & t3 & t4 & n' & E1 & E2 & E3 & E4 & E).
    rewrite E. unfold calls_of. simpl.
    rewrite !dispatchedState_app, !existsb_app.
    destruct (fetchDataEffect_cases r (state m) (runFetchData runs) (nextId m))
      as [(_ & _ & _ & F1)|(_ & F1)];
      rewrite F1 in E1; injection E1 as <-;
    destruct (importEffect_cases r (state m) (runImport runs) (nextId m))
      as [(_ & _ & _ & _ & [F2|[(d & _ & F2)|[(_ & F2)|(_ & F2)]]])|(_ & F2)];
      rewrite F2 in E2; injection E2 as <- <-;
    match type of E4 with
    | when _ _ ?k = _ =>
        destruct (rotateEffect_cases (state m) (runRotate runs) k)
          as [(pi & dg & _ & _ & _ & F4)|F4];
        rewrite F4 in E4; injection E4 as <-;
        destruct (readyEffect_cases r (state m) (runReady runs) k)
          as [(Hb & Hg & F3)|(_ & F3)];
        rewrite F3 in E3; injection E3 as <-
    end; simpl;
    intros H; try discriminate H; eauto.
  - destruct (existsb (Async_eqb AFetch) (inflight m)); [destruct res|];
      simpl; intros H; discriminate H.
  - destruct (existsb (Async_eqb AImport) (inflight m)); [destruct res|];
      simpl; intros H; discriminate H.
  - destruct (isReady (state m)); simpl; intros H; discriminate H.
  - destruct (existsb (Async_eqb ARotate) (inflight m));
      simpl; intros H; discriminate H.
Qed.

Lemma step_keeps_ready (m : Mount) (e : Event) :
  isReady (state m) = true -> isReady (state (step m e)) = true.
Proof.
  intros H. rewrite step_state, reduceAll_isReady, H. reflexivity.
Qed.

Lemma step_becomes_ready (m : Mount) (e : Event) :
  isReady (state m) = false -> isReady (state (step m e)) = true ->
  exists r runs, e = Commit r runs /\ runReady runs = true
                 /\ readyGuard r (state m) = true.
Proof.
  intros H0 H1. rewrite step_state, reduceAll_isReady, H0 in H1.
  apply actionsOf_READY. exact H1.
Qed.

Lemma readyGuard_true (r : Render) (s : State) :
  readyGuard r s = true <->
  isReady s = false /\ isFetched r = true /\ data s <> None
  /\ annotationsState s = IMPORTED
  /\ truthy_bool (isFetchingUserLibrarySettings r) = false.
Proof.
  unfold readyGuard. rewrite !andb_true_iff, !negb_true_iff, Z.eqb_eq.
  destruct (data s); simpl; intuition congruence.
Qed.

Lemma readiness_once_ready (evs : list Event) :
  forall m, isReady (state m) = true ->
    rises (readiness m evs) = O /\ falls (readiness m evs) = O.
Proof.
  induction evs as [|e evs IH]; intros m H; simpl; rewrite H.
  - auto.
  - pose proof (step_keeps_ready m e H) as H'.
    destruct (IH _ H') as [IHr IHf].
    destruct evs; simpl in *; rewrite H' in *; auto.
Qed.

Lemma readiness_rises_falls (evs : list Event) :
  forall m, (rises (readiness m evs) <= 1)%nat /\ falls (readiness m evs) = O.
Proof.
  induction evs as [|e evs IH]; intros m.
  - simpl. destruct (isReady (state m)); auto.
  - destruct (isReady (state m)) eqn:H.
    + destruct (readiness_once_ready (e :: evs) m H) as [-> ->]. auto.
    + simpl. rewrite H.
      destruct (isReady (state (step m e))) eqn:H'.
      * destruct (readiness_once_ready evs _ H') as [Hr Hf].
        destruct evs; simpl in *; rewrite H' in *; rewrite ?Hr, ?Hf; auto.
      * destruct (IH (step m e)) as [Hr Hf].
        destruct evs; simpl in *; rewrite H' in *; auto.
Qed.

(** C1.  Along every sequence of events of one mount, [isReady] goes from
    false to true at most once and never from true to false; an event that
    makes it true is a commit in which the test of the READY effect held
    (children fetched, data present, annotations IMPORTED, user-library
    settings not being fetched); and no action of the reducer takes
    [isReady] from true to false. *)
Theorem C1_isReady_once_and_never_unset :
  (forall (m : Mount) (evs : list Event),
      (rises (readiness m evs) <= 1)%nat /\ falls (readiness m evs) = O)
  /\ (forall (m : Mount) (e : Event),
         isReady (state m) = false ->
         isReady (state (step m e)) = true ->
         exists r runs,
           e = Commit r runs
           /\ isFetched r = true
           /\ data (state m) <> None
           /\ annotationsState (state m) = IMPORTED
           /\ truthy_bool (isFetchingUserLibrarySettings r) = false)
  /\ (forall (s : State) (a : Action),
         isReady s = true -> isReady (readerReducer s a) = true)
  /\ (forall (s : State) (a : Action),
         isReady s = false -> isReady (readerReducer s a) = true -> a = READY).
Proof.
  split; [|split; [|split]].
  - intros m evs. apply readiness_rises_falls.
  - intros m e H0 H1.
    destruct (step_becomes_ready m e H0 H1) as (r & runs & -> & _ & G).
    apply readyGuard_true in G. exists r, runs. intuition.
  - intros s a H. rewrite readerReducer_isReady, H. reflexivity.
  - intros s a H0 H1. rewrite readerReducer_isReady, H0 in H1.
    destruct a; simpl in H1; try discriminate H1. reflexivity.
Qed.

(** ** What holds after every sequence of events of a mount *)

Lemma count_async_app (x : Async) (l1 l2 : list Async) :
  count_async x (l1 ++ l2) = (count_async x l1 + count_async x l2)%nat.
Proof.
  induction l1 as [|y l1 IH]; simpl; [reflexivity|].
  rewrite IH. lia.
Qed.

Lemma count_async_existsb (x : Async) (l : list Async) :
  existsb (Async_eqb x) l = true <-> (0 < count_async x l)%nat.
Proof.
  induction l as [|y l IH]; simpl.
  - split; [discriminate|lia].
  - destruct (Async_eqb x y); simpl; [split; [lia|reflexivity]|exact IH].
Qed.

Lemma count_async_remove (x y : Async) (l : list Async) :
  count_async x (remove_async y l)
  = if Async_eqb x y then Nat.pred (count_async x l) else count_async x l.
Proof.
  induction l as [|z l IH]; simpl.
  - destruct (Async_eqb x y); reflexivity.
  - destruct x, y, z; simpl in *; try reflexivity; rewrite ?IH; try reflexivity;
      destruct (count_async _ l); reflexivity.
Qed.

Lemma mounted_invariant : mountInvariant mounted.
Proof.
  unfold mountInvariant, mounted; simpl.
  repeat split; intros H; try reflexivity; exfalso; try discriminate H;
    apply H; reflexivity.
Qed.

Lemma step_commit (m : Mount) (r : Render) (runs : Runs) :
  exists t n,
    commitEffects r runs (state m) (nextId m) = (tt, t, n)
    /\ step m (Commit r runs)
       = {| state := reduceAll (state m) (dispatchedState t);
            inflight := inflight m ++ started t;
            nextId := n |}.
Proof.
  unfold step. simpl.
  destruct (commitEffects r runs (state m) (nextId m)) as [[[] t] n].
  exists t, n. split; reflexivity.
Qed.

Lemma step_invariant (m : Mount) (e : Event) :
  mountInvariant m -> mountInvariant (step m e).
Proof.
  intros (IF & II & IA & ID & IB & IR).
  destruct e as [r runs|res|res|pageIndexes degrees|kept].
  - destruct (step_commit m r runs) as (t & n & E & ->).
    destruct (commitEffects_split r runs (state m) (nextId m))
      as (t1 & t2 & t3 & t4 & n' & E1 & E2 & E3 & E4 & E').
    rewrite E in E'. injection E' as -> ->.
    destruct (fetchDataEffect_cases r (state m) (runFetchData runs) (nextId m))
      as [(_ & _ & G1 & F1)|(_ & F1)];
      rewrite F1 in E1; injection E1 as <-;
    destruct (importEffect_cases r (state m) (runImport runs) (nextId m))
      as [(_ & _ & G2 & G2' & [F2|[(d & Hd & F2)|[(Hd & F2)|(Hd & F2)]]])|(_ & F2)];
      rewrite F2 in E2; injection E2 as <- <-;
    match type of E4 with
    | when _ _ ?k = _ =>
        destruct (rotateEffect_cases (state m) (runRotate runs) k)
          as [(pi & dg & _ & G4 & _ & F4)|F4];
        rewrite F4 in E4; injection E4 as <-;
        destruct (readyEffect_cases r (state m) (runReady runs) k)
          as [(Hb & Hg & F3)|(_ & F3)];
        rewrite F3 in E3; injection E3 as <-
    end;
    try (apply readyGuard_true in Hg; destruct Hg as (_ & _ & Hg & Hg' & _));
    clear E F1 F2 F3 F4;
    unfold mountInvariant; simpl;
    rewrite ?count_async_app; simpl;
    unfold UNFETCHED, FETCHING, FETCHED, NOT_IMPORTED, IMPORTING, IMPORTED in *;
    try lia;
    repeat match goal with
    | H : ?x = _ |- _ => rewrite H in *; simpl in *
    end;
    repeat split; intros; try lia; try congruence; auto;
    try (apply IA; lia); try (apply ID; lia); try (apply IB; lia).
  - unfold step; simpl.
    destruct (existsb (Async_eqb AFetch) (inflight m)) eqn:Ex;
      [|unfold mountInvariant; auto 10].
    apply count_async_existsb in Ex.
    destruct (Z.eqb_spec (dataState (state m)) FETCHING) as [Hf|Hf]; [|lia].
    destruct res; unfold mountInvariant; simpl;
      rewrite !app_nil_r, !count_async_remove; simpl; rewrite IF;
      unfold UNFETCHED, FETCHING, FETCHED, NOT_IMPORTED, IMPORTING, IMPORTED in *;
      repeat split; intros; try lia; try congruence; auto.
  - unfold step; simpl.
    destruct (existsb (Async_eqb AImport) (inflight m)) eqn:Ex;
      [|unfold mountInvariant; auto 10].
    apply count_async_existsb in Ex.
    destruct (Z.eqb_spec (annotationsState (state m)) IMPORTING) as [Hf|Hf];
      [|lia].
    destruct res; unfold mountInvariant; simpl;
      rewrite !app_nil_r, !count_async_remove; simpl; rewrite II;
      unfold UNFETCHED, FETCHING, FETCHED, NOT_IMPORTED, IMPORTING, IMPORTED in *;
      repeat split; intros; try lia; try congruence; auto;
      try (apply IA; lia); try (apply IB; lia).
  - unfold step; simpl.
    destruct (isReady (state m)) eqn:Hr;
      [|unfold mountInvariant; repeat split; intros; auto; congruence].
    unfold mountInvariant; simpl. rewrite !app_nil_r. auto 10.
  - unfold step; simpl.
    destruct (existsb (Async_eqb ARotate) (inflight m)) eqn:Ex;
      [|unfold mountInvariant; auto 10].
    unfold mountInvariant; simpl;
      rewrite !app_nil_r, !count_async_remove; simpl.
    repeat split; intros; try congruence; auto.
Qed.

Lemma run_invariant (evs : list Event) :
  forall m, mountInvariant m -> mountInvariant (run m evs).
Proof.
  unfold run.
  induction evs as [|e evs IH]; intros m H; simpl; [exact H|].
  apply IH, step_invariant, H.
Qed.

Lemma actionsOf_commit (m : Mount) (r : Render) (runs : Runs) :
  exists t1 t2 t3 t4 n',
    when (runFetchData runs) (fetchDataEffect r (state m)) (nextId m)
    = (tt, t1, nextId m)
    /\ when (runImport runs) (importEffect r (state m)) (nextId m) = (tt, t2, n')
    /\ when (runReady runs) (readyEffect r (state m)) n' = (tt, t3, n')
    /\ when (runRotate runs) (rotateEffect (state m)) n' = (tt, t4, n')
    /\ actionsOf m (Commit r runs)
       = dispatchedState t1 ++ dispatchedState t2
         ++ dispatchedState t3 ++ dispatchedState t4
    /\ inflight (step m (Commit r runs))
       = inflight m ++ started t1 ++ started t2 ++ started t3 ++ started t4.
Proof.
  destruct (commitEffects_split r runs (state m) (nextId m))
    as (t1 & t2 & t3 & t4 & n' & E1 & E2 & E3 & E4 & E).
  exists t1, t2, t3, t4, n'. repeat (split; [assumption|]).
  unfold actionsOf, step. simpl. rewrite E. unfold calls_of. simpl.
  rewrite !dispatchedState_app, !started_app. split; reflexivity.
Qed.

Lemma commit_fires_ready (m : Mount) (r : Render) (runs : Runs) :
  runReady runs = true -> readyGuard r (state m) = true ->
  isReady (state (step m (Commit r runs))) = true.
Proof.
  intros Hb Hg. rewrite step_state, reduceAll_isReady.
  destruct (actionsOf_commit m r runs)
    as (t1 & t2 & t3 & t4 & n' & _ & _ & E3 & _ & -> & _).
  destruct (readyEffect_cases r (state m) (runReady runs) n')
    as [(_ & _ & F3)|([F|F] & _)]; [|congruence|congruence].
  rewrite F3 in E3. injection E3 as <-.
  rewrite !existsb_app. simpl. rewrite !orb_true_r. reflexivity.
Qed.

(** C6.  After any sequence of events of a mount, when the attachment's
    content type is not application/pdf, the data are FETCHED and the
    annotations NOT_IMPORTED, the import effect dispatches BEGIN and SKIP
    and calls no extraction; after that commit the annotations are
    IMPORTED, no import is in flight, [importedAnnotations] is still
    empty and [error] is what it was. *)
Theorem C6_skip_import_for_other_content_types
  (evs : list Event) (r : Render) (runs : Runs) (item : Item) :
  attachmentItem r = Some item ->
  contentType item <> "application/pdf" ->
  dataState (state (run mounted evs)) = FETCHED ->
  annotationsState (state (run mounted evs)) = NOT_IMPORTED ->
  runImport runs = true ->
  (forall n, importEffect r (state (run mounted evs)) n
             = (tt, [DispatchState BEGIN_IMPORT_ANNOTATIONS;
                     DispatchState SKIP_IMPORT_ANNOTATIONS], n))
  /\ annotationsState (state (step (run mounted evs) (Commit r runs)))
     = IMPORTED
  /\ count_async AImport (inflight (step (run mounted evs) (Commit r runs)))
     = O
  /\ importedAnnotations (state (step (run mounted evs) (Commit r runs))) = []
  /\ error (state (step (run mounted evs) (Commit r runs)))
     = error (state (run mounted evs)).
Proof.
  intros Hitem Hct Hd Ha Hb.
  pose proof (run_invariant evs mounted_invariant) as (IF & II & IA & _).
  set (m := run mounted evs) in *.
  assert (Himp : forall n, importEffect r (state m) n
             = (tt, [DispatchState BEGIN_IMPORT_ANNOTATIONS;
                     DispatchState SKIP_IMPORT_ANNOTATIONS], n)).
  { intros n. unfold importEffect. rewrite Hitem, Hd, Ha. simpl.
    destruct (String.eqb_spec (contentType item) "application/pdf");
      [contradiction|reflexivity]. }
  split; [exact Himp|].
  rewrite step_state.
  destruct (actionsOf_commit m r runs)
    as (t1 & t2 & t3 & t4 & n' & E1 & E2 & E3 & E4 & -> & ->).
  rewrite Hb in E2. simpl in E2. rewrite Himp in E2. injection E2 as <- <-.
  destruct (fetchDataEffect_cases r (state m) (runFetchData runs) (nextId m))
    as [(_ & _ & G1 & F1)|(_ & F1)];
    [rewrite Hd in G1; discriminate G1|].
  rewrite F1 in E1. injection E1 as <-.
  destruct (readyEffect_cases r (state m) (runReady runs) (nextId m))
    as [(_ & G3 & F3)|(_ & F3)].
  { apply readyGuard_true in G3. destruct G3 as (_ & _ & _ & G3 & _).
    rewrite Ha in G3. discriminate G3. }
  rewrite F3 in E3. injection E3 as <-.
  rewrite Ha in II. simpl in II.
  destruct (rotateEffect_cases (state m) (runRotate runs) (nextId m))
    as [(pi & dg & _ & _ & _ & F4)|F4];
    rewrite F4 in E4; injection E4 as <-; simpl;
    rewrite ?count_async_app; simpl; rewrite II;
    (repeat split; [apply IA; rewrite Ha; discriminate]).
Qed.

(** C7.  After any sequence of events of a mount that leaves an import in
    flight, when the extraction throws [e] the annotations become
    IMPORTED, [error] holds [e], [importedAnnotations] is still empty,
    and the next commit in which the READY effect runs with the children
    fetched and the user-library settings not being fetched makes the
    reader ready. *)
Theorem C7_import_failure_is_not_fatal (evs : list Event) (e : JsError) :
  existsb (Async_eqb AImport) (inflight (run mounted evs)) = true ->
  annotationsState
    (state (step (run mounted evs) (ImportSettled (Throw e)))) = IMPORTED
  /\ error (state (step (run mounted evs) (ImportSettled (Throw e)))) = Some e
  /\ importedAnnotations
       (state (step (run mounted evs) (ImportSettled (Throw e)))) = []
  /\ forall (r : Render) (runs : Runs),
       runReady runs = true ->
       isFetched r = true ->
       truthy_bool (isFetchingUserLibrarySettings r) = false ->
       isReady
         (state (step (step (run mounted evs) (ImportSettled (Throw e)))
                      (Commit r runs))) = true.
Proof.
  intros Ex.
  pose proof (run_invariant evs mounted_invariant) as (_ & II & IA & _ & IB & _).
  set (m := run mounted evs) in *.
  pose proof Ex as Hc. apply count_async_existsb in Hc.
  destruct (Z.eqb_spec (annotationsState (state m)) IMPORTING) as [Hi|Hi];
    [|lia].
  assert (Hs : state (step m (ImportSettled (Throw e)))
               = readerReducer (state m) (ERROR_IMPORT_ANNOTATIONS e)).
  { rewrite step_state. unfold actionsOf. simpl. rewrite Ex. reflexivity. }
  rewrite Hs. simpl.
  split; [reflexivity|]. split; [reflexivity|].
  split; [apply IA; rewrite Hi; discriminate|].
  intros r runs Hb Hf Hu.
  destruct (isReady (state m)) eqn:Hr.
  - apply step_keeps_ready. rewrite Hs. simpl. exact Hr.
  - apply commit_fires_ready; [exact Hb|].
    apply readyGuard_true. rewrite Hs. simpl.
    repeat split; auto. apply IB. rewrite Hi. discriminate.
Qed.

(** C8.  The fetch effect starts a fetch only when the URL is fresh and
    [dataState] is UNFETCHED, so it starts none while FETCHING or FETCHED
    and at most one fetch is ever in flight; a failed fetch sets
    [dataState] back to UNFETCHED and records the error; after that the
    effect starts a fetch again exactly when the URL is fresh in the
    render in which it runs. *)
Theorem C8_fetch_started_only_when_unfetched :
  (forall (r : Render) (s : State) (n : nat),
      calls_of (fetchDataEffect r s n) <> [] ->
      dataState s = UNFETCHED /\ urlIsFresh r = true)
  /\ (forall (r : Render) (s : State) (n : nat),
         dataState s = FETCHING \/ dataState s = FETCHED ->
         fetchDataEffect r s n = (tt, [], n))
  /\ (forall (evs : list Event),
         (count_async AFetch (inflight (run mounted evs)) <= 1)%nat
         /\ (count_async AFetch (inflight (run mounted evs)) = 1%nat <->
             dataState (state (run mounted evs)) = FETCHING))
  /\ (forall (s : State) (e : JsError),
         dataState (readerReducer s (ERROR_FETCH_DATA e)) = UNFETCHED
         /\ error (readerReducer s (ERROR_FETCH_DATA e)) = Some e)
  /\ (forall (evs : list Event) (e : JsError),
         dataState (state (run mounted evs)) = FETCHING ->
         dataState (state (step (run mounted evs) (FetchSettled (Throw e))))
         = UNFETCHED
         /\ error (state (step (run mounted evs) (FetchSettled (Throw e))))
            = Some e
         /\ count_async AFetch
              (inflight (step (run mounted evs) (FetchSettled (Throw e))))
            = O)
  /\ (forall (r : Render) (s : State) (e : JsError) (n : nat),
         fetchDataEffect r (readerReducer s (ERROR_FETCH_DATA e)) n
         = if urlIsFresh r
           then (tt, [DispatchState BEGIN_FETCH_DATA; Fetch (url r)], n)
           else (tt, [], n)).
Proof.
  split; [|split; [|split; [|split; [|split]]]].
  - intros r s n H. unfold fetchDataEffect in H.
    destruct (urlIsFresh r); simpl in H; [|contradiction H; reflexivity].
    destruct (Z.eqb_spec (dataState s) UNFETCHED); [auto|].
    contradiction H; reflexivity.
  - intros r s n [H|H]; unfold fetchDataEffect; rewrite H;
      rewrite andb_false_r; reflexivity.
  - intros evs.
    pose proof (run_invariant evs mounted_invariant) as (IF & _).
    rewrite IF.
    destruct (Z.eqb_spec (dataState (state (run mounted evs))) FETCHING);
      split; try lia; split; intros; congruence.
  - intros s e. split; reflexivity.
  - intros evs e Hf.
    pose proof (run_invariant evs mounted_invariant) as Hinv.
    pose proof (step_invariant (FetchSettled (Throw e)) Hinv) as (IF' & _).
    destruct Hinv as (IF & _).
    set (m := run mounted evs) in *.
    rewrite Hf in IF. simpl in IF.
    assert (Ex : existsb (Async_eqb AFetch) (inflight m) = true)
      by (apply count_async_existsb; lia).
    assert (Hs : state (step m (FetchSettled (Throw e)))
                 = readerReducer (state m) (ERROR_FETCH_DATA e)).
    { rewrite step_state. unfold actionsOf. simpl. rewrite Ex. reflexivity. }
    rewrite IF', Hs. simpl. auto.
  - intros r s e n. unfold fetchDataEffect. simpl.
    destruct (urlIsFresh r); reflexivity.
Qed.

(** ** Freshness of the attachment URL *)

(** C4.  For a non-empty URL fetched at [timestamp], [urlIsFresh] holds at
    every time before [timestamp + 60000] (so at [timestamp + 59999]) and
    fails at every time from [timestamp + 60000] on (so at
    [timestamp + 60001]); whenever it fails and no URL fetch is in flight
    the effect dispatches [tryGetAttachmentURL]. *)
Theorem C4_url_fresh_for_sixty_seconds (r : Render) (u : string) :
  url r = Some u -> u <> "" ->
  (dateNow r < timestamp r + 60000 -> urlIsFresh r = true)
  /\ (timestamp r + 60000 <= dateNow r -> urlIsFresh r = false)
  /\ (dateNow r = timestamp r + 59999 -> urlIsFresh r = true)
  /\ (dateNow r = timestamp r + 60001 -> urlIsFresh r = false)
  /\ (urlIsFresh r = false -> isFetchingUrl r = false ->
      forall n, fetchUrlEffect r n
                = (tt, [Dispatch (tryGetAttachmentURL (attachmentKey r))], n)).
Proof.
  intros Hu Hne.
  assert (Ht : truthy_string (url r) = true).
  { rewrite Hu. simpl. destruct (String.eqb_spec u ""); [contradiction|].
    reflexivity. }
  unfold urlIsFresh. rewrite Ht. simpl.
  repeat split; intros H.
  - apply Z.ltb_lt. lia.
  - apply Z.ltb_ge. lia.
  - apply Z.ltb_lt. lia.
  - apply Z.ltb_ge. lia.
  - intros Hf n. unfold fetchUrlEffect, urlIsFresh.
    rewrite Ht, Hf. simpl. rewrite H. reflexivity.
Qed.

(** ** The diff-worker client *)

(** One message of the listener, then the induction hypothesis on the
    rest of the session. *)
Ltac listener_step evs IH finish :=
  simpl; unfold bind;
  match goal with
  | c : WorkerCommand |- _ => destruct c; simpl
  end;
  match goal with
  | |- context [onMessages ?q evs ?k] =>
      specialize (IH q k); destruct (onMessages q evs k) as [[? ?] ?];
      unfold value_of, calls_of, next_of in *; simpl in *; finish
  end.

Lemma onMessages_value (evs : list WorkerMessage) :
  forall p n, value_of (onMessages p evs n) = diffOutcome p evs.
Proof.
  induction evs as [|[c pl] evs IH]; intros p n; [reflexivity|].
  listener_step evs IH ltac:(exact IH).
Qed.

Lemma onMessages_posted (evs : list WorkerMessage) :
  forall p n,
    posted (calls_of (onMessages p evs n)) = repeat DIFF (countReady evs).
Proof.
  induction evs as [|[c pl] evs IH]; intros p n; [reflexivity|].
  listener_step evs IH ltac:(rewrite ?IH; reflexivity).
Qed.

Lemma onMessages_next (evs : list WorkerMessage) :
  forall p n, next_of (onMessages p evs n) = n.
Proof.
  induction evs as [|[c pl] evs IH]; intros p n; [reflexivity|].
  listener_step evs IH ltac:(exact IH).
Qed.

Lemma onMessages_quiet (evs : list WorkerMessage) :
  forall p n,
    dispatched (calls_of (onMessages p evs n)) = []
    /\ dispatchedState (calls_of (onMessages p evs n)) = [].
Proof.
  induction evs as [|[c pl] evs IH]; intros p n; [split; reflexivity|].
  listener_step evs IH ltac:(exact IH).
Qed.

Lemma diffOutcome_settled (evs : list WorkerMessage) :
  forall p, p <> Pending -> diffOutcome p evs = p.
Proof.
  induction evs as [|[c pl] evs IH]; intros p Hp; [reflexivity|].
  destruct c; simpl; try (apply IH; exact Hp);
    destruct p; try contradiction; simpl; apply IH; discriminate.
Qed.

Lemma diffOutcome_app (pre post : list WorkerMessage) :
  forall p, diffOutcome p (pre ++ post) = diffOutcome (diffOutcome p pre) post.
Proof.
  induction pre as [|[c pl] pre IH]; intros p; [reflexivity|].
  destruct c; simpl; apply IH.
Qed.

Lemma diffOutcome_no_terminal (pre : list WorkerMessage) :
  forallb (fun ev => negb (isTerminal ev)) pre = true ->
  forall p, diffOutcome p pre = p.
Proof.
  induction pre as [|[c pl] pre IH]; intros H p; [reflexivity|].
  simpl in H. apply andb_true_iff in H. destruct H as [Hc H].
  destruct c; simpl in *; try discriminate Hc; apply IH; exact H.
Qed.

Lemma diffOutcome_without_logs (evs : list WorkerMessage) :
  forall p, diffOutcome p (filter (fun ev => negb (isLog ev)) evs)
            = diffOutcome p evs.
Proof.
  induction evs as [|[c pl] evs IH]; intros p; [reflexivity|].
  destruct c; simpl; apply IH.
Qed.

Lemma countReady_without_logs (evs : list WorkerMessage) :
  countReady (filter (fun ev => negb (isLog ev)) evs) = countReady evs.
Proof.
  induction evs as [|[c pl] evs IH]; [reflexivity|].
  destruct c; simpl; rewrite ?IH; reflexivity.
Qed.

Lemma computeDiffUsingWorker_run (sc : bool) (oldFile newFile : Buffer)
  (evs : list WorkerMessage) (n : nat) :
  exists t,
    computeDiffUsingWorker sc oldFile newFile evs n
    = (diffOutcome Pending evs,
       NewDiffWorker
       :: WorkerPostMessage
            (LOAD {| buf_id := n; buf_bytes := buf_bytes oldFile |}
                  {| buf_id := S n; buf_bytes := buf_bytes newFile |})
       :: t,
       S (S n))
    /\ posted t = repeat DIFF (countReady evs)
    /\ dispatched t = [] /\ dispatchedState t = [].
Proof.
  unfold computeDiffUsingWorker, computeDiff_start, bind, cloneData.
  pose proof (onMessages_value evs Pending (S (S n))) as Hv.
  pose proof (onMessages_posted evs Pending (S (S n))) as Hp.
  pose proof (onMessages_next evs Pending (S (S n))) as Hn.
  pose proof (onMessages_quiet evs Pending (S (S n))) as [Hq Hq'].
  destruct sc; simpl;
    destruct (onMessages Pending evs (S (S n))) as [[v t] k];
    unfold value_of, calls_of, next_of in *; simpl in *; subst;
    exists t; auto.
Qed.

(** C5.  The client first posts LOAD with a clone of each file: two new
    buffers, distinct from each other and from every buffer that existed
    before, holding the bytes of the old and of the new file.  After any
    messages of the worker it has posted exactly one DIFF per READY
    received, and nothing else.  The promise is fulfilled with the payload
    of a DIFF_COMPLETE that no terminal message precedes, rejected with
    the payload of a DIFF_ERROR that no terminal message precedes, and
    dropping the LOG messages changes neither the promise nor what was
    posted. *)
Theorem C5_diff_worker_protocol
  (sc : bool) (oldFile newFile : Buffer) (n : nat) :
  let o := {| buf_id := n; buf_bytes := buf_bytes oldFile |} in
  let w := {| buf_id := S n; buf_bytes := buf_bytes newFile |} in
  computeDiff_start sc oldFile newFile n
  = (tt, [NewDiffWorker; WorkerPostMessage (LOAD o w)], S (S n))
  /\ (buf_id o <> buf_id w
      /\ forall b : Buffer,
           (buf_id b < n)%nat -> buf_id o <> buf_id b /\ buf_id w <> buf_id b)
  /\ (forall evs : list WorkerMessage,
         posted (calls_of (computeDiffUsingWorker sc oldFile newFile evs n))
         = LOAD o w :: repeat DIFF (countReady evs))
  /\ (forall (pre post : list WorkerMessage) (payload : Payload),
         forallb (fun ev => negb (isTerminal ev)) pre = true ->
         value_of (computeDiffUsingWorker sc oldFile newFile
                     (pre ++ (W_DIFF_COMPLETE, payload) :: post) n)
         = Fulfilled payload)
  /\ (forall (pre post : list WorkerMessage) (payload : Payload),
         forallb (fun ev => negb (isTerminal ev)) pre = true ->
         value_of (computeDiffUsingWorker sc oldFile newFile
                     (pre ++ (W_DIFF_ERROR, payload) :: post) n)
         = Rejected payload)
  /\ (forall evs : list WorkerMessage,
         value_of (computeDiffUsingWorker sc oldFile newFile
                     (filter (fun ev => negb (isLog ev)) evs) n)
         = value_of (computeDiffUsingWorker sc oldFile newFile evs n)
         /\ posted (calls_of (computeDiffUsingWorker sc oldFile newFile
                                (filter (fun ev => negb (isLog ev)) evs) n))
            = posted (calls_of (computeDiffUsingWorker sc oldFile newFile
                                  evs n))).
Proof.
  intros o w.
  split; [unfold computeDiff_start, bind, cloneData; destruct sc; reflexivity|].
  split; [simpl; split; [lia|intros b Hb; lia]|].
  split; [|split; [|split]].
  - intros evs.
    destruct (computeDiffUsingWorker_run sc oldFile newFile evs n)
      as (t & -> & Hp & _).
    unfold calls_of. simpl. rewrite Hp. reflexivity.
  - intros pre post payload Hpre.
    destruct (computeDiffUsingWorker_run sc oldFile newFile
                (pre ++ (W_DIFF_COMPLETE, payload) :: post) n)
      as (t & -> & _).
    unfold value_of. simpl.
    rewrite diffOutcome_app, (diffOutcome_no_terminal _ Hpre). simpl.
    apply diffOutcome_settled. discriminate.
  - intros pre post payload Hpre.
    destruct (computeDiffUsingWorker_run sc oldFile newFile
                (pre ++ (W_DIFF_ERROR, payload) :: post) n)
      as (t & -> & _).
    unfold value_of. simpl.
    rewrite diffOutcome_app, (diffOutcome_no_terminal _ Hpre). simpl.
    apply diffOutcome_settled. discriminate.
  - intros evs.
    destruct (computeDiffUsingWorker_run sc oldFile newFile evs n)
      as (t & -> & Hp & _).
    destruct (computeDiffUsingWorker_run sc oldFile newFile
                (filter (fun ev => negb (isLog ev)) evs) n)
      as (t' & -> & Hp' & _).
    unfold value_of, calls_of. simpl.
    rewrite Hp, Hp', diffOutcome_without_logs, countReady_without_logs.
    split; reflexivity.
Qed.

(** ** Page rotation *)

Lemma dispatched_app (t1 t2 : list Effect) :
  dispatched (t1 ++ t2) = dispatched t1 ++ dispatched t2.
Proof.
  induction t1 as [|e t1 IH]; simpl; [reflexivity|].
  destruct e; simpl; rewrite ?IH; reflexivity.
Qed.



Lemma rotatePages_run (r : Render) (item : Item) (oldBuf : Buffer)
  (pageIndexes : list Z) (degrees : Z) (modifiedBuf : Buffer)
  (evs : list WorkerMessage) (n : nat) :
  attachmentItem r = Some item ->
  dispatchedState
    (calls_of (rotatePages r oldBuf pageIndexes degrees
                 (Fulfilled modifiedBuf) evs n))
  = [ROTATED_PAGES {| buf_id := S (S n); buf_bytes := buf_bytes modifiedBuf |}]
  /\ dispatched
       (calls_of (rotatePages r oldBuf pageIndexes degrees
                    (Fulfilled modifiedBuf) evs n))
     = match diffOutcome Pending evs with
       | Fulfilled d => [patchAttachment (key item) modifiedBuf d]
       | Rejected _ =>
           [uploadAttachment (key item) (filename item)
              {| buf_id := (5 + n)%nat; buf_bytes := buf_bytes modifiedBuf |}]
       | Pending => []
       end.
Proof.
  intros Hitem.
  unfold rotatePages, bind, cloneData. rewrite Hitem.
  destruct (computeDiffUsingWorker_run (hasStructuredClone r) oldBuf
              modifiedBuf evs (S (S (S n))))
    as (t & E & _ & Hd & Hs).
  destruct (hasStructuredClone r); simpl in *; rewrite E;
    destruct (diffOutcome Pending evs); unfold calls_of; simpl;
    rewrite !dispatchedState_app, ?Hs; simpl;
    rewrite ?dispatched_app, ?Hd; simpl; split; reflexivity.
Qed.

(** C3 as the specification states it fails: here the diff succeeds, and
    the one call the store receives, [patchAttachment], is created with
    the whole modified buffer next to the diff (line 237). *)
Lemma C3_patch_call_carries_modified_buffer :
  diffOutcome Pending sampleDiffSession = Fulfilled (PayloadBytes [x02])
  /\ dispatched
       (calls_of (rotatePages (sampleRender samplePdf 2000) sampleOldBuf [0] 90
                    (Fulfilled sampleModifiedBuf) sampleDiffSession 2%nat))
     = [patchAttachment "ATTACH01" sampleModifiedBuf (PayloadBytes [x02])]
  /\ ~ (forall a,
          In a (dispatched
                  (calls_of (rotatePages (sampleRender samplePdf 2000)
                               sampleOldBuf [0] 90
                               (Fulfilled sampleModifiedBuf)
                               sampleDiffSession 2%nat))) ->
          ~ In sampleModifiedBuf (buffersOf a)).
Proof.
  split; [reflexivity|]. split; [reflexivity|].
  intros H.
  apply (H (patchAttachment "ATTACH01" sampleModifiedBuf (PayloadBytes [x02])));
    simpl; auto.
Qed.

(** C3, amended.  When [pdfWorker.rotatePages] has produced the modified
    buffer: if the diff promise is fulfilled with [d], the store receives
    exactly one call, [patchAttachment] with the attachment key, the
    modified buffer and [d]; if it is rejected, the store receives exactly
    one call, [uploadAttachment] with the key, the file name and a new
    clone of the modified buffer; in both cases the reducer receives
    ROTATED_PAGES once. *)
Theorem C3_rotation_patches_or_uploads
  (r : Render) (item : Item) (oldBuf : Buffer) (pageIndexes : list Z)
  (degrees : Z) (modifiedBuf : Buffer) (evs : list WorkerMessage) (n : nat) :
  attachmentItem r = Some item ->
  (forall d : Payload,
      diffOutcome Pending evs = Fulfilled d ->
      dispatched
        (calls_of (rotatePages r oldBuf pageIndexes degrees
                     (Fulfilled modifiedBuf) evs n))
      = [patchAttachment (key item) modifiedBuf d])
  /\ (forall e : Payload,
         diffOutcome Pending evs = Rejected e ->
         exists file : Buffer,
           dispatched
             (calls_of (rotatePages r oldBuf pageIndexes degrees
                          (Fulfilled modifiedBuf) evs n))
           = [uploadAttachment (key item) (filename item) file]
           /\ buf_bytes file = buf_bytes modifiedBuf
           /\ (n <= buf_id file)%nat)
  /\ value_of (computeDiffUsingWorker (hasStructuredClone r) oldBuf
                 modifiedBuf evs (3 + n)%nat)
     = diffOutcome Pending evs.
Proof.
  intros Hitem.
  destruct (rotatePages_run r oldBuf pageIndexes degrees modifiedBuf evs n
              Hitem) as [_ Hd].
  split; [|split].
  - intros d E. rewrite Hd, E. reflexivity.
  - intros e E. rewrite Hd, E. eexists. split; [reflexivity|].
    simpl. split; [reflexivity|lia].
  - destruct (computeDiffUsingWorker_run (hasStructuredClone r) oldBuf
                modifiedBuf evs (3 + n)%nat) as (t & -> & _).
    reflexivity.
Qed.

Lemma C3_rotation_witness :
  dispatched
    (calls_of (rotatePages (sampleRender samplePdf 2000) sampleOldBuf [0] 90
                 (Fulfilled sampleModifiedBuf) sampleDiffSession 2%nat))
  = [patchAttachment "ATTACH01" sampleModifiedBuf (PayloadBytes [x02])].
Proof.
  apply (@C3_rotation_patches_or_uploads
           (sampleRender samplePdf 2000) samplePdf
           sampleOldBuf [0] 90 sampleModifiedBuf sampleDiffSession 2%nat
           eq_refl).
  reflexivity.
Defined.

(** ** The export dialog *)

Section ExportModalProperties.

Import ExportModal.

Variable firstFormat : Format.
Variable moreFormats : list Format.


Variable itemKeys : list string.





End ExportModalProperties.

(** ** The annotation delta and annotation processing *)

Section AnnotationProperties.

Variable deepEqual : Item -> Item -> bool.
Variable annotationItemToJSON : Item -> Result Json.

Lemma findByKey_Some (prev : list Item) (a p : Item) :
  findByKey prev a = Some p -> In p prev /\ key p = key a.
Proof.
  unfold findByKey. intros H. apply find_some in H.
  destruct H as [Hin Hk]. apply String.eqb_eq in Hk. auto.
Qed.

Lemma findByKey_None (prev : list Item) (a : Item) :
  findByKey prev a = None <-> (forall p, In p prev -> key p <> key a).
Proof.
  unfold findByKey. split.
  - intros H p Hin Hk.
    pose proof (find_none _ _ H p Hin) as Hn. simpl in Hn.
    apply String.eqb_neq in Hn. contradiction.
  - intros H. induction prev as [|q prev IH]; [reflexivity|].
    simpl. destruct (String.eqb_spec (key q) (key a)) as [E|E].
    + exfalso. apply (H q); [left; reflexivity|exact E].
    + apply IH. intros p Hin. apply H. right. exact Hin.
Qed.

Lemma findByKey_unique (prev : list Item) (a p : Item) :
  NoDup (map key prev) -> In p prev -> key p = key a ->
  findByKey prev a = Some p.
Proof.
  unfold findByKey.
  induction prev as [|q prev IH]; intros Hnd Hin Hk; [contradiction|].
  simpl. inversion Hnd as [|k ks Hnotin Hnd']; subst.
  destruct Hin as [->|Hin].
  - rewrite Hk, String.eqb_refl. reflexivity.
  - destruct (String.eqb_spec (key q) (key a)) as [E|E].
    + exfalso. apply Hnotin. rewrite E, <- Hk. apply in_map. exact Hin.
    + apply IH; assumption.
Qed.




Lemma tryMap_converted {A B : Type} (f : A -> Result B) (l : list A)
  (bs : list B) :
  tryMap f l = Ok bs <-> Forall2 (fun a b => f a = Ok b) l bs.
Proof.
  revert bs. induction l as [|a l IH]; intros bs; simpl.
  - split.
    + intros H. injection H as <-. constructor.
    + intros H. inversion H. reflexivity.
  - split.
    + destruct (f a) as [b|e] eqn:Ha; [|discriminate].
      destruct (tryMap f l) as [bs'|e] eqn:Hl; [|discriminate].
      intros H. injection H as <-.
      constructor; [exact Ha|]. apply IH. reflexivity.
    + intros H. inversion H as [|a' b l' bs' Ha Hl]; subst.
      rewrite Ha. rewrite (proj2 (IH bs') Hl). reflexivity.
Qed.

Lemma tryMap_thrown {A B : Type} (f : A -> Result B) (l : list A)
  (e : JsError) :
  tryMap f l = Throw e -> exists a, In a l /\ f a = Throw e.
Proof.
  induction l as [|a l IH]; simpl; [discriminate|].
  destruct (f a) as [b|e'] eqn:Ha.
  - destruct (tryMap f l) as [bs|e'']; [discriminate|].
    intros H. injection H as ->.
    destruct (IH eq_refl) as (x & Hin & Hx). eauto.
  - intros H. injection H as ->. eauto.
Qed.


Lemma tryMap_throws {A B : Type} (f : A -> Result B) (l : list A) :
  (exists a, In a l /\ exists e, f a = Throw e) ->
  exists e, tryMap f l = Throw e.
Proof.
  induction l as [|x l IH]; intros (a & Hin & e & He); [contradiction|].
  simpl. destruct (f x) as [b|e'] eqn:Hx; [|eauto].
  destruct Hin as [->|Hin]; [congruence|].
  destruct IH as (e'' & ->); eauto.
Qed.

Lemma tryMap_Ok {A B : Type} (f : A -> Result B) (l : list A) (bs : list B) :
  tryMap f l = Ok bs ->
  List.length bs = List.length l /\ forall a, In a l -> exists b, f a = Ok b.
Proof.
  revert bs. induction l as [|x l IH]; intros bs H; simpl in H.
  - injection H as <-. split; [reflexivity|]. intros a [].
  - destruct (f x) as [b|e] eqn:Hx; [|discriminate H].
    destruct (tryMap f l) as [bs'|e]; [|discriminate H].
    injection H as <-. destruct (IH bs' eq_refl) as [Hl Hall].
    split; [simpl; congruence|].
    intros a [<-|Hin]; eauto.
Qed.

(** C10.  When [annotationItemToJSON] throws on one of the annotations,
    [getProcessedAnnotations] dispatches ERROR_PROCESSING_ANNOTATIONS, logs
    the error thrown and returns [undefined], not a list; the delta effect,
    with a viewer created, then calls [setAnnotations(undefined)] (with
    [reader.current] still null it throws before processing anything), and
    [handleIframeLoaded] throws on the spread of [undefined] before
    [createReader] is called. *)
Theorem C10_processing_error_yields_undefined (anns : list Item) :
  (exists a, In a anns /\ exists e, annotationItemToJSON a = Throw e) ->
  exists e : JsError,
    (exists a, In a anns /\ annotationItemToJSON a = Throw e)
    /\ (forall n,
        getProcessedAnnotations annotationItemToJSON anns n
        = (None,
           [Dispatch (ERROR_PROCESSING_ANNOTATIONS
                        "Failed to process annotations");
            ConsoleError e],
           n))
    /\ (forall n,
          value_of (getProcessedAnnotations annotationItemToJSON anns n)
          <> Some [])
    /\ (forall (r : Render) (s : State) (P : list Item) (n : nat),
          isReady s = true -> isBusy r = false ->
          prevAnnotations r = Some P ->
          deepEqualArray deepEqual P (annotations r) = false ->
          changedAnnotations deepEqual P (annotations r) = anns ->
          annotationsEffect deepEqual annotationItemToJSON r s true n
          = (Ok tt,
             [Dispatch (ERROR_PROCESSING_ANNOTATIONS
                          "Failed to process annotations");
              ConsoleError e;
              ReaderSetAnnotations None],
             n)
          /\ annotationsEffect deepEqual annotationItemToJSON r s false n
             = (Throw "TypeError", [], n))
    /\ (forall (r : Render) (s : State) (item : Item) (d : Buffer) (n : nat),
          annotations r = anns ->
          attachmentItem r = Some item -> data s = Some d ->
          handleIframeLoaded annotationItemToJSON r s n
          = (Throw "TypeError",
             [Dispatch (ERROR_PROCESSING_ANNOTATIONS
                          "Failed to process annotations");
              ConsoleError e],
             S n)).
Proof.
  intros Hthrows.
  destruct (tryMap_throws annotationItemToJSON anns Hthrows) as (e & He).
  exists e.
  assert (Hg : forall n,
        getProcessedAnnotations annotationItemToJSON anns n
        = (None,
           [Dispatch (ERROR_PROCESSING_ANNOTATIONS
                        "Failed to process annotations");
            ConsoleError e],
           n)).
  { intros n. unfold getProcessedAnnotations. rewrite He. reflexivity. }
  split; [apply tryMap_thrown; exact He|].
  split; [exact Hg|]. split; [|split].
  - intros n. rewrite Hg. discriminate.
  - intros r s P n Hr Hb Hprev Hneq Hch.
    unfold annotationsEffect, changedAnnotationsOpt.
    rewrite Hr, Hb, Hprev. simpl. rewrite Hneq. simpl.
    unfold bind. rewrite Hch, Hg. split; reflexivity.
  - intros r s item d n Hanns Hitem Hd.
    unfold handleIframeLoaded, bind. rewrite Hanns, Hg, Hitem, Hd.
    unfold cloneData. destruct (hasStructuredClone r); reflexivity.
Qed.

End AnnotationProperties.

(** ** Runs of the model *)

(** An HTML snapshot: fetch, skip the import, become ready. *)
Example mount_html_becomes_ready :
  readiness mounted
    [Commit (sampleRender sampleHtml 2000) allEffects;
     FetchSettled (Ok sampleOldBuf);
     Commit (sampleRender sampleHtml 2000) allEffects;
     Commit (sampleRender sampleHtml 2000) allEffects;
     ViewerRotatePages [0] 90;
     Commit (sampleRender sampleHtml 2000) allEffects;
     PagesRotated sampleModifiedBuf]
  = [false; false; false; false; true; true; true; true].
Proof. reflexivity. Qed.

(** A PDF whose fetch fails once: the error stays recorded after the
    second fetch succeeds and the import completes. *)
Example mount_pdf_refetches_after_error :
  let m := run mounted
             [Commit (sampleRender samplePdf 2000) allEffects;
              FetchSettled (Throw "TypeError: Failed to fetch");
              Commit (sampleRender samplePdf 3000) allEffects;
              FetchSettled (Ok sampleOldBuf);
              Commit (sampleRender samplePdf 3000) allEffects;
              ImportSettled (Ok [[("id", "IMPORTED1")]]);
              Commit (sampleRender samplePdf 3000) allEffects] in
  isReady (state m) = true
  /\ dataState (state m) = FETCHED
  /\ error (state m) = Some "TypeError: Failed to fetch"
  /\ importedAnnotations (state m) = [[("id", "IMPORTED1")]]
  /\ inflight m = [].
Proof. repeat split. Qed.

(** A stale URL starts no fetch of the data. *)
Example mount_stale_url_fetches_nothing :
  run mounted [Commit (sampleRender samplePdf 61000) allEffects] = mounted.
Proof. reflexivity. Qed.

(** With two previous items under one key, line 425 compares with the
    first of them only: the hypothesis of distinct keys in the delta
    theorem cannot be dropped. *)
Example changedAnnotations_first_match_only :
  changedAnnotations item_eqb
    [sampleAnnotation "ANNOT001" "first"; sampleAnnotation "ANNOT001" "other"]
    [sampleAnnotation "ANNOT001" "first"]
  = []
  /\ deltaSpec item_eqb
       [sampleAnnotation "ANNOT001" "first";
        sampleAnnotation "ANNOT001" "other"]
       [sampleAnnotation "ANNOT001" "first"]
     = [sampleAnnotation "ANNOT001" "first"].
Proof. split; reflexivity. Qed.

(** When [exportItems] rejects, nothing after the [await] runs: no save,
    and [isBusy] stays set. *)
Lemma handleExport_resume_rejected
  (st : ExportModal.ModalState) (fileName : string) (e : JsError) :
  ExportModal.handleExport_resume st fileName (Rejected e) = (st, []).
Proof. reflexivity. Qed.

(** A diff session: LOAD, then DIFF after READY, fulfilled by
    DIFF_COMPLETE; the LOG message goes to the console. *)
Example diff_session_run :
  computeDiffUsingWorker true sampleOldBuf sampleModifiedBuf
    sampleDiffSession 2%nat
  = (Fulfilled (PayloadBytes [x02]),
     [NewDiffWorker;
      WorkerPostMessage
        (LOAD {| buf_id := 2; buf_bytes := buf_bytes sampleOldBuf |}
              {| buf_id := 3; buf_bytes := buf_bytes sampleModifiedBuf |});
      ConsoleWarn (PayloadText "loading");
      WorkerPostMessage DIFF],
     4%nat).
Proof. reflexivity. Qed.

(** ** The theorems at concrete inputs *)


Lemma C4_url_fresh_witness :
  urlIsFresh (sampleRender samplePdf (1000 + 59999)) = true
  /\ urlIsFresh (sampleRender samplePdf (1000 + 60001)) = false.
Proof.
  split.
  - apply (@C4_url_fresh_for_sixty_seconds
             (sampleRender samplePdf (1000 + 59999))
             "https://files.example/ATTACH" eq_refl);
      [discriminate|reflexivity].
  - apply (@C4_url_fresh_for_sixty_seconds
             (sampleRender samplePdf (1000 + 60001))
             "https://files.example/ATTACH" eq_refl);
      [discriminate|reflexivity].
Defined.

Lemma C6_skip_import_witness :
  annotationsState
    (state (step (run mounted [Commit (sampleRender sampleHtml 2000) allEffects;
                               FetchSettled (Ok sampleOldBuf)])
                 (Commit (sampleRender sampleHtml 2000) allEffects)))
  = IMPORTED
  /\ importedAnnotations
       (state (step (run mounted
                       [Commit (sampleRender sampleHtml 2000) allEffects;
                        FetchSettled (Ok sampleOldBuf)])
                    (Commit (sampleRender sampleHtml 2000) allEffects)))
     = [].
Proof.
  destruct (@C6_skip_import_for_other_content_types
              [Commit (sampleRender sampleHtml 2000) allEffects;
               FetchSettled (Ok sampleOldBuf)]
              (sampleRender sampleHtml 2000) allEffects sampleHtml
              eq_refl)
    as (_ & Ha & _ & Hi & _);
    [discriminate|reflexivity|reflexivity|reflexivity|].
  split; [exact Ha|exact Hi].
Defined.

Lemma C7_import_failure_witness :
  isReady
    (state (step (step (run mounted
                          [Commit (sampleRender samplePdf 2000) allEffects;
                           FetchSettled (Ok sampleOldBuf);
                           Commit (sampleRender samplePdf 2000) allEffects])
                       (ImportSettled (Throw "Error: bad xref")))
                 (Commit (sampleRender samplePdf 2000) allEffects)))
  = true.
Proof.
  destruct (@C7_import_failure_is_not_fatal
              [Commit (sampleRender samplePdf 2000) allEffects;
               FetchSettled (Ok sampleOldBuf);
               Commit (sampleRender samplePdf 2000) allEffects]
              "Error: bad xref" eq_refl)
    as (_ & _ & _ & Hready).
  apply Hready; reflexivity.
Defined.



Lemma C10_processing_error_witness :
  exists e : JsError,
    forall n,
      getProcessedAnnotations sampleToJSON
        [sampleAnnotation "ANNOT001" "first"; brokenAnnotation "ANNOT009"] n
      = (None,
         [Dispatch (ERROR_PROCESSING_ANNOTATIONS
                      "Failed to process annotations");
          ConsoleError e],
         n).
Proof.
  destruct (@C10_processing_error_yields_undefined item_eqb sampleToJSON
              [sampleAnnotation "ANNOT001" "first";
               brokenAnnotation "ANNOT009"]
              (ex_intro _ (brokenAnnotation "ANNOT009")
                 (conj (or_intror (or_introl eq_refl))
                       (ex_intro _ "Error: unknown annotation type" eq_refl))))
    as (e & _ & Hg & _).
  exists e. exact Hg.
Defined.

Lemma C1_isReady_witness :
  exists (r : Render) (runs : Runs),
    Commit (sampleRender sampleHtml 2000) allEffects = Commit r runs
    /\ isFetched r = true
    /\ annotationsState
         (state (run mounted
                   [Commit (sampleRender sampleHtml 2000) allEffects;
                    FetchSettled (Ok sampleOldBuf);
                    Commit (sampleRender sampleHtml 2000) allEffects]))
       = IMPORTED.
Proof.
  destruct C1_isReady_once_and_never_unset as (_ & Hrise & _).
  destruct (Hrise
              (run mounted
                 [Commit (sampleRender sampleHtml 2000) allEffects;
                  FetchSettled (Ok sampleOldBuf);
                  Commit (sampleRender sampleHtml 2000) allEffects])
              (Commit (sampleRender sampleHtml 2000) allEffects)
              eq_refl eq_refl)
    as (r & runs & E & Hf & _ & Ha & _).
  exists r, runs. auto.
Defined.

Lemma C5_diff_worker_witness :
  value_of (computeDiffUsingWorker true sampleOldBuf sampleModifiedBuf
              sampleDiffSession 2%nat)
  = Fulfilled (PayloadBytes [x02]).
Proof.
  destruct (C5_diff_worker_protocol true sampleOldBuf sampleModifiedBuf 2%nat)
    as (_ & _ & _ & Hcomplete & _).
  exact (Hcomplete [(W_LOG, PayloadText "loading"); (W_READY, PayloadUndefined)]
           [] (PayloadBytes [x02]) eq_refl).
Defined.

Lemma C8_fetch_failure_witness :
  dataState
    (state (step (run mounted [Commit (sampleRender samplePdf 2000) allEffects])
                 (FetchSettled (Throw "TypeError: Failed to fetch"))))
  = UNFETCHED
  /\ error
       (state (step (run mounted
                       [Commit (sampleRender samplePdf 2000) allEffects])
                    (FetchSettled (Throw "TypeError: Failed to fetch"))))
     = Some "TypeError: Failed to fetch".
Proof.
  destruct C8_fetch_started_only_when_unfetched as (_ & _ & _ & _ & Hfail & _).
  destruct (Hfail [Commit (sampleRender samplePdf 2000) allEffects]
              "TypeError: Failed to fetch" eq_refl)
    as (Hd & He & _).
  split; [exact Hd|exact He].
Defined.

(* ===================================================================== *)
(** * Further properties *)
(* ===================================================================== *)

From Stdlib Require Import Permutation.

(** ** The lifecycle of a mount *)

Lemma stepCalls_actions (m : Mount) (e : Event) :
  actionsOf m e = dispatchedState (stepCalls m e).
Proof.
  unfold actionsOf, stepCalls. destruct (handler m e); reflexivity.
Qed.

Lemma step_inflight (m : Mount) (e : Event) :
  handler m e <> None ->
  inflight (step m e)
  = fold_left (fun l a => remove_async a l) (settles e) (inflight m)
    ++ started (stepCalls m e).
Proof.
  unfold step, stepCalls. destruct (handler m e) as [body|];
    [|intros H; contradiction H; reflexivity].
  intros _. destruct (body (nextId m)) as [[u t] n]. reflexivity.
Qed.

(** A commit, split into the cases of its four effects; the goal is
    left with [step] and [stepCalls] of the commit computed. *)
Ltac commit_cases m r runs :=
  let t := fresh "t" in
  let n := fresh "n" in
  let E := fresh "E" in
  let E' := fresh "E'" in
  let t1 := fresh "t1" in let t2 := fresh "t2" in
  let t3 := fresh "t3" in let t4 := fresh "t4" in
  let n' := fresh "n'" in
  let E1 := fresh "E1" in let E2 := fresh "E2" in
  let E3 := fresh "E3" in let E4 := fresh "E4" in
  let F1 := fresh "F1" in let F2 := fresh "F2" in
  let F3 := fresh "F3" in let F4 := fresh "F4" in
  let C := fresh "C" in
  assert (C : stepCalls m (Commit r runs)
              = calls_of (commitEffects r runs (state m) (nextId m)))
    by reflexivity;
  rewrite ?C; clear C;
  destruct (step_commit m r runs) as (t & n & E & ->);
  destruct (commitEffects_split r runs (state m) (nextId m))
    as (t1 & t2 & t3 & t4 & n' & E1 & E2 & E3 & E4 & E');
  rewrite ?E; rewrite E in E'; injection E' as -> ->;
  destruct (fetchDataEffect_cases r (state m) (runFetchData runs) (nextId m))
    as [(_ & Hfresh & Hunf & F1)|(_ & F1)];
    rewrite F1 in E1; injection E1 as <-;
  destruct (importEffect_cases r (state m) (runImport runs) (nextId m))
    as [(_ & _ & Hfd & Hni
         & [F2|[(d & Hd & F2)|[(Hd & F2)|(Hd & F2)]]])|(_ & F2)];
    rewrite F2 in E2; injection E2 as <- <-;
  match type of E4 with
  | when _ _ ?k = _ =>
      destruct (rotateEffect_cases (state m) (runRotate runs) k)
        as [(pi & dg & _ & Hrdy & Hact & F4)|F4];
      rewrite F4 in E4; injection E4 as <-;
      destruct (readyEffect_cases r (state m) (runReady runs) k)
        as [(_ & Hg & F3)|(_ & F3)];
      rewrite F3 in E3; injection E3 as <-
  end;
  try match goal with
      | G : readyGuard _ _ = true |- _ =>
          apply readyGuard_true in G;
          destruct G as (Hnr & Hfetched & Hdata & Himp & Hset)
      end;
  clear E F1 F2 F3 F4;
  unfold calls_of; simpl.

Ltac unfold_constants :=
  unfold UNFETCHED, FETCHING, FETCHED, NOT_IMPORTED, IMPORTING, IMPORTED in *.

Lemma step_lifecycle (m : Mount) (e : Event) :
  mountInvariant m -> lifecycleInvariant m -> lifecycleInvariant (step m e).
Proof.
  intros (IF & II & IA & ID & IB & IR) (LD & LA & LF & LR).
  destruct e as [r runs|res|res|pageIndexes degrees|kept].
  - commit_cases m r runs; unfold lifecycleInvariant; simpl;
      unfold_constants;
      repeat match goal with
      | H : ?x = _ |- _ => rewrite H in *; simpl in *
      end;
      repeat split; intros; try lia; try congruence; auto;
      try (apply LF; lia); try (apply LR; assumption);
      try (specialize (LR ltac:(assumption)); lia).
  - unfold step; simpl.
    destruct (existsb (Async_eqb AFetch) (inflight m)) eqn:Ex; [|repeat split; assumption].
    apply count_async_existsb in Ex.
    destruct (Z.eqb_spec (dataState (state m)) FETCHING) as [Hf|Hf]; [|lia].
    destruct res; unfold lifecycleInvariant; simpl; unfold_constants;
      repeat split; intros; auto; try lia;
      try (specialize (LF ltac:(assumption)); lia);
      try (apply LR; assumption).
  - unfold step; simpl.
    destruct (existsb (Async_eqb AImport) (inflight m)) eqn:Ex;
      [|repeat split; assumption].
    apply count_async_existsb in Ex.
    destruct (Z.eqb_spec (annotationsState (state m)) IMPORTING) as [Hi|Hi];
      [|lia].
    destruct res; unfold lifecycleInvariant; simpl; unfold_constants;
      repeat split; intros; auto; try lia; apply LF; lia.
  - unfold step; simpl.
    destruct (isReady (state m)) eqn:Hr; unfold lifecycleInvariant; simpl;
      repeat split; intros; auto; congruence.
  - unfold step; simpl.
    destruct (existsb (Async_eqb ARotate) (inflight m)) eqn:Ex;
      repeat split; auto.
Qed.

Lemma run_lifecycle (evs : list Event) :
  forall m, mountInvariant m -> lifecycleInvariant m ->
            lifecycleInvariant (run m evs).
Proof.
  unfold run.
  induction evs as [|e evs IH]; intros m Hm Hl; simpl; [exact Hl|].
  apply IH; [apply step_invariant, Hm|apply step_lifecycle; assumption].
Qed.

Lemma mounted_lifecycle : lifecycleInvariant mounted.
Proof.
  unfold lifecycleInvariant, mounted; simpl.
  repeat split; auto; intros H; try discriminate H.
  contradiction H; reflexivity.
Qed.

Lemma run_app (m : Mount) (evs1 evs2 : list Event) :
  run m (evs1 ++ evs2) = run (run m evs1) evs2.
Proof. unfold run. apply fold_left_app. Qed.

Lemma runCalls_app (evs1 evs2 : list Event) :
  forall m, runCalls m (evs1 ++ evs2)
            = runCalls m evs1 ++ runCalls (run m evs1) evs2.
Proof.
  induction evs1 as [|e evs1 IH]; intros m; simpl; [reflexivity|].
  rewrite IH, app_assoc. reflexivity.
Qed.

Lemma count_started_app (x : Async) (t1 t2 : list Effect) :
  count_async x (started (t1 ++ t2))
  = (count_async x (started t1) + count_async x (started t2))%nat.
Proof. rewrite started_app. apply count_async_app. Qed.

(** What one event does to the import: the annotations state does not go
    back, and an extraction starts only from NOT_IMPORTED, leaving
    IMPORTING. *)
Lemma step_import (m : Mount) (e : Event) :
  mountInvariant m -> lifecycleInvariant m ->
  annotationsState (state m) <= annotationsState (state (step m e))
  /\ (count_async AImport (started (stepCalls m e)) = O
      \/ (count_async AImport (started (stepCalls m e)) = 1%nat
          /\ annotationsState (state m) = NOT_IMPORTED
          /\ annotationsState (state (step m e)) = IMPORTING)).
Proof.
  intros (IF & II & IA & ID & IB & IR) (LD & LA & LF & LR).
  destruct e as [r runs|res|res|pageIndexes degrees|kept].
  - commit_cases m r runs; unfold_constants;
      repeat match goal with
      | H : ?x = _ |- _ => rewrite H in *; simpl in *
      end;
      split; try lia; auto;
      try (specialize (LR ltac:(assumption)); lia).
  - unfold step, stepCalls; simpl.
    destruct (existsb (Async_eqb AFetch) (inflight m)); [destruct res|];
      simpl; split; auto; lia.
  - unfold step, stepCalls; simpl.
    destruct (existsb (Async_eqb AImport) (inflight m)); [destruct res|];
      simpl; unfold_constants; split; auto; lia.
  - unfold step, stepCalls; simpl.
    destruct (isReady (state m)); simpl; split; auto; lia.
  - unfold step, stepCalls; simpl.
    destruct (existsb (Async_eqb ARotate) (inflight m));
      simpl; split; auto; lia.
Qed.

Lemma run_import (evs : list Event) :
  forall m, mountInvariant m -> lifecycleInvariant m ->
    annotationsState (state m) <= annotationsState (state (run m evs))
    /\ (count_async AImport (started (runCalls m evs))
        <= if (annotationsState (state m) =? NOT_IMPORTED)%Z then 1 else 0)%nat.
Proof.
  induction evs as [|e evs IH]; intros m Hm Hl; simpl.
  - split; [unfold run; simpl; lia|].
    destruct (annotationsState (state m) =? NOT_IMPORTED); lia.
  - destruct (step_import e Hm Hl) as [Hmono Hstart].
    destruct (IH (step m e) (step_invariant e Hm) (step_lifecycle e Hm Hl))
      as [IHmono IHcount].
    split; [unfold run in *; simpl; lia|].
    rewrite count_started_app.
    destruct Hstart as [->|(-> & Hni & Himp)].
    + simpl.
      destruct (Z.eqb_spec (annotationsState (state (step m e))) NOT_IMPORTED)
        as [Hs|Hs];
        destruct (Z.eqb_spec (annotationsState (state m)) NOT_IMPORTED)
          as [Ht|Ht]; try lia.
      destruct Hl as (_ & LA & _). unfold_constants. lia.
    + rewrite Himp in IHcount. rewrite Hni. simpl in *. lia.
Qed.

(** X1.  Along any sequence of events of a mount the annotations state
    never goes back, and annotation extraction is started at most once. *)
Theorem X1_import_runs_at_most_once (evs evs' : list Event) :
  annotationsState (state (run mounted evs))
  <= annotationsState (state (run mounted (evs ++ evs')))
  /\ (count_async AImport (started (runCalls mounted evs)) <= 1)%nat.
Proof.
  split.
  - rewrite run_app.
    apply (run_import evs' (run_invariant evs mounted_invariant)
             (run_lifecycle evs mounted_invariant mounted_lifecycle)).
  - apply (run_import evs mounted_invariant mounted_lifecycle).
Qed.

Lemma step_fetched (m : Mount) (e : Event) :
  mountInvariant m -> dataState (state m) = FETCHED ->
  dataState (state (step m e)) = FETCHED
  /\ count_async AFetch (started (stepCalls m e)) = O.
Proof.
  intros (IF & II & IA & ID & IB & IR) Hf.
  destruct e as [r runs|res|res|pageIndexes degrees|kept].
  - commit_cases m r runs; unfold_constants;
      repeat match goal with
      | H : ?x = _ |- _ => rewrite H in *; simpl in *
      end;
      split; auto; lia.
  - unfold step, stepCalls; simpl.
    destruct (existsb (Async_eqb AFetch) (inflight m)) eqn:Ex; [|auto].
    apply count_async_existsb in Ex. rewrite Hf in IF. simpl in IF. lia.
  - unfold step, stepCalls; simpl.
    destruct (existsb (Async_eqb AImport) (inflight m)); [destruct res|];
      simpl; auto.
  - unfold step, stepCalls; simpl.
    destruct (isReady (state m)); simpl; auto.
  - unfold step, stepCalls; simpl.
    destruct (existsb (Async_eqb ARotate) (inflight m)); simpl; auto.
Qed.

(** X2.  Once the data are FETCHED they stay FETCHED for the rest of the
    mount and no further fetch of the data is started, whatever the later
    renders hold (a refreshed or stale URL included). *)
Theorem X2_fetched_is_final (evs evs' : list Event) :
  dataState (state (run mounted evs)) = FETCHED ->
  dataState (state (run mounted (evs ++ evs'))) = FETCHED
  /\ count_async AFetch (started (runCalls (run mounted evs) evs')) = O.
Proof.
  rewrite run_app.
  generalize (run_invariant evs mounted_invariant).
  generalize (run mounted evs) as m.
  induction evs' as [|e evs' IH]; intros m Hm Hf; simpl; [auto|].
  destruct (step_fetched e Hm Hf) as [Hf' Hc].
  destruct (IH (step m e) (step_invariant e Hm) Hf') as [IHf IHc].
  split; [exact IHf|].
  rewrite count_started_app, Hc, IHc. reflexivity.
Qed.

Lemma X2_fetched_is_final_witness :
  dataState
    (state (run mounted
              ([Commit (sampleRender samplePdf 2000) allEffects;
                FetchSettled (Ok sampleOldBuf)]
               ++ [Commit (sampleRender samplePdf 70000) allEffects;
                   Commit (sampleRender samplePdf 70500) allEffects])))
  = FETCHED.
Proof.
  apply (@X2_fetched_is_final
           [Commit (sampleRender samplePdf 2000) allEffects;
            FetchSettled (Ok sampleOldBuf)]
           [Commit (sampleRender samplePdf 70000) allEffects;
            Commit (sampleRender samplePdf 70500) allEffects]
           eq_refl).
Defined.

(** X3.  Whenever the reader is ready, the data are FETCHED and present,
    the annotations are IMPORTED, and neither a fetch of the data nor an
    import is in flight. *)
Theorem X3_ready_means_loaded (evs : list Event) :
  isReady (state (run mounted evs)) = true ->
  dataState (state (run mounted evs)) = FETCHED
  /\ annotationsState (state (run mounted evs)) = IMPORTED
  /\ data (state (run mounted evs)) <> None
  /\ count_async AFetch (inflight (run mounted evs)) = O
  /\ count_async AImport (inflight (run mounted evs)) = O.
Proof.
  intros Hr.
  destruct (run_invariant evs mounted_invariant)
    as (IF & II & _ & _ & _ & IR).
  destruct (run_lifecycle evs mounted_invariant mounted_lifecycle)
    as (_ & _ & LF & LR).
  pose proof (LR Hr) as Hi.
  assert (Hf : dataState (state (run mounted evs)) = FETCHED)
    by (apply LF; rewrite Hi; discriminate).
  rewrite IF, II, Hf, Hi. simpl. auto.
Qed.

Lemma X3_ready_means_loaded_witness :
  dataState
    (state (run mounted
              [Commit (sampleRender sampleHtml 2000) allEffects;
               FetchSettled (Ok sampleOldBuf);
               Commit (sampleRender sampleHtml 2000) allEffects;
               Commit (sampleRender sampleHtml 2000) allEffects]))
  = FETCHED.
Proof.
  apply (@X3_ready_means_loaded
           [Commit (sampleRender sampleHtml 2000) allEffects;
            FetchSettled (Ok sampleOldBuf);
            Commit (sampleRender sampleHtml 2000) allEffects;
            Commit (sampleRender sampleHtml 2000) allEffects]
           eq_refl).
Defined.

Lemma rotateCalls_app (t1 t2 : list Effect) :
  rotateCalls (t1 ++ t2) = rotateCalls t1 ++ rotateCalls t2.
Proof.
  induction t1 as [|e t1 IH]; simpl; [reflexivity|].
  destruct e; simpl; rewrite ?IH; reflexivity.
Qed.

Lemma commit_rotate (m : Mount) (r : Render) (runs : Runs) :
  rotateCalls (stepCalls m (Commit r runs))
  = (if runRotate runs && isReady (state m)
     then match action (state m) with
          | Some (ROTATE_PAGES p d) => [(data (state m), p, d)]
          | _ => []
          end
     else [])
  /\ (rotateCalls (stepCalls m (Commit r runs)) <> [] ->
      action (state (step m (Commit r runs))) = None).
Proof.
  assert (Hrot : forall n,
    when (runRotate runs) (rotateEffect (state m)) n
    = (tt,
       (if runRotate runs && isReady (state m)
        then match action (state m) with
             | Some (ROTATE_PAGES p d) =>
                 [DispatchState ROTATING_PAGES;
                  CallRotatePages (data (state m)) p d]
             | _ => []
             end
        else []), n)).
  { intros n. unfold rotateEffect.
    destruct (runRotate runs); simpl; [|reflexivity].
    destruct (action (state m)) as [[]|]; destruct (isReady (state m));
      reflexivity. }
  assert (Hcalls : stepCalls m (Commit r runs)
                   = calls_of (commitEffects r runs (state m) (nextId m)))
    by reflexivity.
  rewrite Hcalls, step_state, stepCalls_actions, Hcalls.
  destruct (commitEffects_split r runs (state m) (nextId m))
    as (t1 & t2 & t3 & t4 & n' & E1 & E2 & E3 & E4 & ->).
  unfold calls_of. simpl.
  rewrite Hrot in E4. injection E4 as <-.
  destruct (fetchDataEffect_cases r (state m) (runFetchData runs) (nextId m))
    as [(_ & _ & _ & F1)|(_ & F1)];
    rewrite F1 in E1; injection E1 as <-;
  destruct (importEffect_cases r (state m) (runImport runs) (nextId m))
    as [(_ & _ & _ & _ & [F2|[(d & _ & F2)|[(_ & F2)|(_ & F2)]]])|(_ & F2)];
    rewrite F2 in E2; injection E2 as <- <-;
  match type of E3 with
  | when _ _ ?k = _ =>
      destruct (readyEffect_cases r (state m) (runReady runs) k)
        as [(_ & _ & F3)|(_ & F3)];
      rewrite F3 in E3; injection E3 as <-
  end;
  destruct (runRotate runs && isReady (state m));
  destruct (action (state m)) as [[]|]; simpl;
  (split; [reflexivity|intros Hne; try reflexivity;
                       contradiction Hne; reflexivity]).
Qed.

(** X4.  Two rotation requests of the viewer before the next commit
    overwrite one another: the commit starts exactly one [rotatePages]
    call, for the last request and the buffer of that render, and clears
    the pending action, so that a further commit starts none. *)
Theorem X4_last_rotation_request_wins
  (m : Mount) (p1 p2 : list Z) (d1 d2 : Z) (r r' : Render) (runs runs' : Runs) :
  isReady (state m) = true -> runRotate runs = true ->
  rotateCalls
    (stepCalls (step (step m (ViewerRotatePages p1 d1))
                     (ViewerRotatePages p2 d2))
       (Commit r runs))
  = [(data (state m), p2, d2)]
  /\ rotateCalls
       (stepCalls
          (step (step (step m (ViewerRotatePages p1 d1))
                      (ViewerRotatePages p2 d2))
                (Commit r runs))
          (Commit r' runs'))
     = [].
Proof.
  intros Hr Hb.
  set (m2 := step (step m (ViewerRotatePages p1 d1)) (ViewerRotatePages p2 d2)).
  assert (Hs : state m2
               = set_action (Some (ROTATE_PAGES p2 d2))
                   (set_action (Some (ROTATE_PAGES p1 d1)) (state m))).
  { unfold m2, step. simpl. rewrite Hr. simpl. rewrite Hr. reflexivity. }
  destruct (commit_rotate m2 r runs) as [Hc Hclear].
  rewrite Hs in Hc. simpl in Hc. rewrite Hb, Hr in Hc. simpl in Hc.
  split; [exact Hc|].
  destruct (commit_rotate (step m2 (Commit r runs)) r' runs') as [Hc' _].
  rewrite Hc', Hclear by (rewrite Hc; discriminate).
  destruct (runRotate runs' && isReady (state (step m2 (Commit r runs))));
    reflexivity.
Qed.

Lemma X4_last_rotation_request_witness :
  rotateCalls
    (stepCalls
       (step (step (run mounted
                      [Commit (sampleRender sampleHtml 2000) allEffects;
                       FetchSettled (Ok sampleOldBuf);
                       Commit (sampleRender sampleHtml 2000) allEffects;
                       Commit (sampleRender sampleHtml 2000) allEffects])
                   (ViewerRotatePages [0] 90))
             (ViewerRotatePages [1; 2] 180))
       (Commit (sampleRender sampleHtml 3000) allEffects))
  = [(Some sampleOldBuf, [1; 2], 180)].
Proof.
  apply (@X4_last_rotation_request_wins
           (run mounted
              [Commit (sampleRender sampleHtml 2000) allEffects;
               FetchSettled (Ok sampleOldBuf);
               Commit (sampleRender sampleHtml 2000) allEffects;
               Commit (sampleRender sampleHtml 2000) allEffects])
           [0] [1; 2] 90 180
           (sampleRender sampleHtml 3000) (sampleRender sampleHtml 3000)
           allEffects allEffects eq_refl eq_refl).
Defined.

Lemma step_stale (e : Event) :
  staleEvent e = true -> step mounted e = mounted /\ stepCalls mounted e = [].
Proof.
  destruct e as [r runs|res|res|pageIndexes degrees|kept]; simpl;
    intros Hs; try (split; reflexivity).
  apply negb_true_iff in Hs.
  assert (E : commitEffects r runs initialState O = (tt, [], O)).
  { unfold commitEffects, bind, fetchDataEffect, importEffect, readyEffect,
      rotateEffect, readyGuard.
    rewrite Hs. simpl.
    destruct (runFetchData runs), (runImport runs), (runReady runs),
      (runRotate runs), (attachmentItem r), (isFetched r); reflexivity. }
  unfold step, stepCalls. simpl. rewrite E. split; reflexivity.
Qed.

(** X5.  As long as no render holds a fresh URL (none at all, an empty
    one, or one older than a minute) nothing happens in the mount: the
    state stays the initial one, nothing is in flight, and the effects
    that reach the reducer make no call. *)
Theorem X5_nothing_starts_without_fresh_url (evs : list Event) :
  forallb staleEvent evs = true ->
  run mounted evs = mounted /\ runCalls mounted evs = [].
Proof.
  induction evs as [|e evs IH]; simpl; intros H; [split; reflexivity|].
  apply andb_true_iff in H. destruct H as [He Hevs].
  destruct (step_stale e He) as [Hstep Hcalls].
  unfold run in *. simpl. rewrite Hstep, Hcalls.
  exact (IH Hevs).
Qed.

Lemma X5_nothing_starts_witness :
  run mounted
    [Commit (sampleRender samplePdf 61000) allEffects;
     FetchSettled (Ok sampleOldBuf);
     ViewerRotatePages [0] 90;
     Commit (sampleRender samplePdf 90000) allEffects]
  = mounted.
Proof.
  apply (@X5_nothing_starts_without_fresh_url
           [Commit (sampleRender samplePdf 61000) allEffects;
            FetchSettled (Ok sampleOldBuf);
            ViewerRotatePages [0] 90;
            Commit (sampleRender samplePdf 90000) allEffects]
           eq_refl).
Defined.

(** X6.  In any state a mount can reach, the import effect on a PDF
    finds [state.data] present: it calls [pdfWorker.import] with the
    result of [cloneData(state.data)], whose bytes are those of
    [state.data]; the branches for null data (an import of null, a
    TypeError on [null.slice]) are not taken. *)
Theorem X6_import_never_sees_null_data
  (evs : list Event) (r : Render) (item : Item) (n : nat) :
  attachmentItem r = Some item ->
  contentType item = "application/pdf" ->
  dataState (state (run mounted evs)) = FETCHED ->
  annotationsState (state (run mounted evs)) = NOT_IMPORTED ->
  exists d : Buffer,
    data (state (run mounted evs)) = Some d
    /\ importEffect r (state (run mounted evs)) n
       = (tt,
          [DispatchState BEGIN_IMPORT_ANNOTATIONS;
           PdfWorkerImport
             (Some (value_of (cloneData (hasStructuredClone r) d n)))],
          next_of (cloneData (hasStructuredClone r) d n))
    /\ buf_bytes (value_of (cloneData (hasStructuredClone r) d n))
       = buf_bytes d.
Proof.
  intros Hitem Hct Hf Hn.
  destruct (run_invariant evs mounted_invariant) as (_ & _ & _ & ID & _).
  destruct (data (state (run mounted evs))) as [d|] eqn:Hd;
    [|contradiction (ID Hf); reflexivity].
  exists d. split; [reflexivity|].
  unfold importEffect. rewrite Hitem, Hf, Hn, Hct, Hd. simpl.
  unfold bind, cloneData.
  destruct (hasStructuredClone r); split; reflexivity.
Qed.

Lemma X6_import_never_sees_null_data_witness :
  importEffect (sampleRender samplePdf 2000)
    (state (run mounted [Commit (sampleRender samplePdf 2000) allEffects;
                         FetchSettled (Ok sampleOldBuf)])) 7%nat
  = (tt,
     [DispatchState BEGIN_IMPORT_ANNOTATIONS;
      PdfWorkerImport
        (Some {| buf_id := 7; buf_bytes := buf_bytes sampleOldBuf |})],
     8%nat).
Proof.
  destruct (@X6_import_never_sees_null_data
              [Commit (sampleRender samplePdf 2000) allEffects;
               FetchSettled (Ok sampleOldBuf)]
              (sampleRender samplePdf 2000) samplePdf 7%nat
              eq_refl eq_refl eq_refl eq_refl)
    as (d & Hd & Himp & _).
  injection Hd as <-. exact Himp.
Defined.

(** ** Page rotation beyond the store calls *)

(** X7.  [rotatePages] unfreezes the viewer exactly when
    [pdfWorker.rotatePages] is fulfilled.  When it rejects or never
    settles the viewer has been frozen, the worker has been handed a clone
    of the old buffer, and nothing else happens: no reload, no unfreeze,
    no action for the reducer, nothing for the store. *)
Theorem X7_failed_rotation_leaves_viewer_frozen
  (r : Render) (oldBuf : Buffer) (pageIndexes : list Z) (degrees : Z)
  (rotated : Promise Buffer JsError) (evs : list WorkerMessage) (n : nat) :
  (existsb isUnfreeze
     (calls_of (rotatePages r oldBuf pageIndexes degrees rotated evs n)) = true
   <-> exists modifiedBuf, rotated = Fulfilled modifiedBuf)
  /\ ((forall modifiedBuf, rotated <> Fulfilled modifiedBuf) ->
      rotatePages r oldBuf pageIndexes degrees rotated evs n
      = (tt,
         [ReaderFreeze;
          PdfWorkerRotatePages
            {| buf_id := n; buf_bytes := buf_bytes oldBuf |}
            pageIndexes degrees true],
         S n)).
Proof.
  assert (Hfail : (forall modifiedBuf, rotated <> Fulfilled modifiedBuf) ->
      rotatePages r oldBuf pageIndexes degrees rotated evs n
      = (tt,
         [ReaderFreeze;
          PdfWorkerRotatePages
            {| buf_id := n; buf_bytes := buf_bytes oldBuf |}
            pageIndexes degrees true],
         S n)).
  { intros Hnot. unfold rotatePages, bind, cloneData.
    destruct rotated as [|b|e]; [|contradiction (Hnot b); reflexivity|];
      destruct (hasStructuredClone r); reflexivity. }
  split; [|exact Hfail].
  split.
  - intros Hun. destruct rotated as [|b|e]; [|eauto|];
      rewrite Hfail in Hun by (intros b; discriminate);
      discriminate Hun.
  - intros (b & ->).
    unfold rotatePages, bind, cloneData.
    destruct (hasStructuredClone r); simpl;
      match goal with
      | |- context [computeDiffUsingWorker ?sc ?o ?w evs ?k] =>
          destruct (computeDiffUsingWorker sc o w evs k) as [[v t] k']
      end;
      destruct v, (attachmentItem r); reflexivity.
Qed.

(** X8.  When [pdfWorker.rotatePages] is fulfilled, the viewer is
    reloaded and the reducer receives ROTATED_PAGES, each with its own new
    clone of the modified buffer, before the diff worker is started and
    whatever it answers; if the worker never sends DIFF_COMPLETE or
    DIFF_ERROR, or the attachment item is undefined, the store receives
    nothing. *)
Theorem X8_rotation_is_shown_before_it_is_saved
  (r : Render) (oldBuf : Buffer) (pageIndexes : list Z) (degrees : Z)
  (modifiedBuf : Buffer) (evs : list WorkerMessage) (n : nat) :
  exists rest : list Effect,
    calls_of (rotatePages r oldBuf pageIndexes degrees
                (Fulfilled modifiedBuf) evs n)
    = [ReaderFreeze;
       PdfWorkerRotatePages {| buf_id := n; buf_bytes := buf_bytes oldBuf |}
         pageIndexes degrees true;
       ReaderReload
         {| buf_id := S n; buf_bytes := buf_bytes modifiedBuf |} (url r);
       ReaderUnfreeze;
       DispatchState
         (ROTATED_PAGES
            {| buf_id := S (S n); buf_bytes := buf_bytes modifiedBuf |});
       NewDiffWorker]
      ++ rest
    /\ dispatchedState rest = []
    /\ (forallb (fun ev => negb (isTerminal ev)) evs = true
        \/ attachmentItem r = None ->
        dispatched rest = []).
Proof.
  unfold rotatePages, bind, cloneData.
  destruct (computeDiffUsingWorker_run (hasStructuredClone r) oldBuf
              modifiedBuf evs (S (S (S n))))
    as (t & E & _ & Hd & Hs).
  pose proof (@diffOutcome_no_terminal evs) as Hquiet.
  destruct (diffOutcome Pending evs) as [|d|e] eqn:Ho;
    destruct (attachmentItem r) as [item|] eqn:Hi;
    destruct (hasStructuredClone r); simpl in *; rewrite E;
    unfold calls_of; simpl;
    eexists; (split; [reflexivity|]);
    simpl; rewrite dispatchedState_app, dispatched_app, Hs, Hd; simpl;
    (split; [reflexivity|]);
    intros [Hq|Hnone]; try reflexivity; try discriminate Hnone;
    specialize (Hquiet Hq Pending); congruence.
Qed.

(** ** The annotations among the children *)

Lemma filterAnnotations_defined (items : list Item) :
  filterAnnotations (map Some items) = Ok (filter isLiveAnnotation items).
Proof.
  induction items as [|item items IH]; simpl; [reflexivity|].
  rewrite IH. unfold isLiveAnnotation.
  destruct (negb (deleted item) && String.eqb (itemType item) "annotation");
    reflexivity.
Qed.

Lemma filterAnnotations_throws (items : list (option Item)) :
  In None items <-> exists e, filterAnnotations items = Throw e.
Proof.
  induction items as [|[item|] items IH]; simpl.
  - split; [intros []|intros (e & H); discriminate H].
  - split.
    + intros [H|H]; [discriminate H|].
      apply IH in H. destruct H as (e & ->). eauto.
    + intros (e & H). right. apply IH.
      destruct (filterAnnotations items) as [rest|e']; [|eauto].
      destruct (negb (deleted item)
                && String.eqb (itemType item) "annotation");
        discriminate H.
  - split; eauto.
Qed.

Lemma filterAnnotations_Ok (items : list (option Item)) (l : list Item) :
  filterAnnotations items = Ok l ->
  forall a, In a l <-> In (Some a) items /\ isLiveAnnotation a = true.
Proof.
  revert l. induction items as [|[item|] items IH]; simpl; intros l H.
  - injection H as <-. intros a. simpl. tauto.
  - destruct (filterAnnotations items) as [rest|e]; [|discriminate H].
    specialize (IH rest eq_refl). intros a.
    fold (isLiveAnnotation item) in H.
    destruct (isLiveAnnotation item) eqn:Hlive; injection H as <-; simpl;
      rewrite IH; split.
    + intros [->|[Hin Ha]]; auto.
    + intros [[Heq|Hin] Ha]; [injection Heq as ->|]; auto.
    + intros [Hin Ha]; auto.
    + intros [[Heq|Hin] Ha]; [injection Heq as ->; congruence|auto].
  - discriminate H.
Qed.

(** X9.  The annotations of a render: none while the children are not
    fetched or their keys are undefined; otherwise a TypeError exactly
    when some child key has no item in the store, and else the children
    that are not deleted and of type annotation, in the order of the
    keys. *)
Theorem X9_annotations_among_children
  (keys : list string) (allItems : string -> option Item) :
  (forall isFetched', selectAnnotations isFetched' None allItems = Ok [])
  /\ selectAnnotations false (Some keys) allItems = Ok []
  /\ ((exists k, In k keys /\ allItems k = None) <->
      exists e, selectAnnotations true (Some keys) allItems = Throw e)
  /\ (forall items,
        map allItems keys = map Some items ->
        selectAnnotations true (Some keys) allItems
        = Ok (filter isLiveAnnotation items)).
Proof.
  unfold selectAnnotations.
  split; [reflexivity|]. split; [reflexivity|]. split.
  - rewrite <- filterAnnotations_throws, in_map_iff.
    split; intros (k & H1 & H2); exists k; auto.
  - intros items ->. apply filterAnnotations_defined.
Qed.

Section FurtherAnnotationProperties.

Variable deepEqual : Item -> Item -> bool.
Variable annotationItemToJSON : Item -> Result Json.

(** X10.  Whatever the previous list, every annotation selected for the
    viewer is one of the current children, not deleted and of type
    annotation: a child that is deleted, or removed from the store's
    children, is never pushed to the viewer by this effect. *)
Theorem X10_deleted_annotations_are_never_pushed
  (keys : list string) (allItems : string -> option Item)
  (P C : list Item) (a : Item) :
  selectAnnotations true (Some keys) allItems = Ok C ->
  In a (changedAnnotations deepEqual P C) ->
  deleted a = false /\ itemType a = "annotation"
  /\ exists k, In k keys /\ allItems k = Some a.
Proof.
  unfold selectAnnotations, changedAnnotations.
  intros Hsel Hin. apply filter_In in Hin. destruct Hin as [Hin _].
  apply (filterAnnotations_Ok _ Hsel) in Hin. destruct Hin as [Hsome Hlive].
  unfold isLiveAnnotation in Hlive.
  apply andb_true_iff in Hlive. destruct Hlive as [Hd Ht].
  apply negb_true_iff in Hd. apply String.eqb_eq in Ht.
  apply in_map_iff in Hsome. destruct Hsome as (k & Hk & Hink).
  eauto.
Qed.

Lemma changedAnnotations_same (C : list Item) :
  NoDup (map key C) -> (forall a, In a C -> deepEqual a a = true) ->
  changedAnnotations deepEqual C C = [].
Proof.
  intros Hnd Hrefl. unfold changedAnnotations.
  assert (H : forall l, incl l C ->
            filter (fun a => negb (deepEqualOpt deepEqual a (findByKey C a))) l
            = []).
  { induction l as [|a l IH]; intros Hincl; [reflexivity|].
    simpl.
    rewrite (@findByKey_unique C a a Hnd (Hincl a (or_introl eq_refl))
               eq_refl).
    simpl. rewrite Hrefl by (apply Hincl; left; reflexivity). simpl.
    apply IH. intros x Hx. apply Hincl. right. exact Hx. }
  apply H, incl_refl.
Qed.

(** X11.  An effect run while a create or update is in flight pushes
    nothing.  With the reader ready, an effect run when that busy period
    has just ended, with annotations that are the previous render's
    (distinct keys, each deep-equal to itself), calls [setAnnotations]
    with the empty list when a viewer has been created: what changed
    during the busy period is not in that push; while [reader.current] is
    still null it throws and pushes nothing. *)
Theorem X11_push_after_busy_period
  (r : Render) (s : State) (n : nat) :
  (isBusy r = true ->
   forall readerCurrent,
     calls_of (annotationsEffect deepEqual annotationItemToJSON r s
                 readerCurrent n) = [])
  /\ (isReady s = true -> isBusy r = false -> wasBusy r = Some true ->
      prevAnnotations r = Some (annotations r) ->
      NoDup (map key (annotations r)) ->
      (forall a, In a (annotations r) -> deepEqual a a = true) ->
      annotationsEffect deepEqual annotationItemToJSON r s true n
      = (Ok tt, [ReaderSetAnnotations (Some [])], n)
      /\ annotationsEffect deepEqual annotationItemToJSON r s false n
         = (Throw "TypeError", [], n)).
Proof.
  unfold annotationsEffect. split.
  - intros Hb readerCurrent. rewrite Hb.
    destruct (isReady s
              && (negb (deepEqualArrayOpt deepEqual (prevAnnotations r)
                          (annotations r))
                  || truthy_bool (wasBusy r) && negb true)); reflexivity.
  - intros Hr Hb Hw Hp Hnd Hrefl.
    rewrite Hr, Hb, Hw, Hp. simpl. rewrite orb_true_r.
    rewrite changedAnnotations_same by assumption. split; reflexivity.
Qed.

Lemma findByKey_perm (P P' : list Item) (a : Item) :
  NoDup (map key P) -> Permutation P P' -> findByKey P a = findByKey P' a.
Proof.
  intros Hnd Hperm.
  assert (Hnd' : NoDup (map key P'))
    by (eapply Permutation_NoDup; [apply Permutation_map, Hperm|exact Hnd]).
  destruct (findByKey P a) as [p|] eqn:Hf.
  - destruct (@findByKey_Some _ _ _ Hf) as [Hin Hk].
    symmetry. apply findByKey_unique; [exact Hnd'| |exact Hk].
    eapply Permutation_in; eassumption.
  - symmetry. apply findByKey_None. intros p Hin.
    apply (proj1 (findByKey_None P a) Hf).
    eapply Permutation_in; [apply Permutation_sym, Hperm|exact Hin].
Qed.

(** X12.  With distinct keys in the previous list, the selection does not
    depend on the order of the previous list. *)
Theorem X12_delta_ignores_order_of_previous (P P' C : list Item) :
  NoDup (map key P) -> Permutation P P' ->
  changedAnnotations deepEqual P C = changedAnnotations deepEqual P' C.
Proof.
  intros Hnd Hperm. unfold changedAnnotations.
  apply filter_ext. intros a.
  rewrite (@findByKey_perm P P' a Hnd Hperm). reflexivity.
Qed.

(** X13.  In any state a mount can reach with the reader ready, when the
    attachment item is defined and [annotationItemToJSON] returns a JSON
    for every annotation of the render, [handleIframeLoaded] creates the
    viewer with the value of [cloneData(state.data)], a buffer with the
    bytes of [state.data], and with those JSON values, in the order of
    the annotations, followed by the imported annotations. *)
Theorem X13_viewer_created_with_a_clone_and_all_annotations
  (evs : list Event) (r : Render) (item : Item) (processed : list Json)
  (n : nat) :
  isReady (state (run mounted evs)) = true ->
  attachmentItem r = Some item ->
  Forall2 (fun a j => annotationItemToJSON a = Ok j) (annotations r)
          processed ->
  exists d : Buffer,
    data (state (run mounted evs)) = Some d
    /\ handleIframeLoaded annotationItemToJSON r (state (run mounted evs)) n
       = (Ok tt,
          [CreateReader {| buf_id := n; buf_bytes := buf_bytes d |}
             (processed ++ importedAnnotations (state (run mounted evs)))],
          S n).
Proof.
  intros Hr Hitem Hconv.
  apply tryMap_converted in Hconv.
  destruct (run_invariant evs mounted_invariant) as (_ & _ & _ & _ & _ & IR).
  destruct (data (state (run mounted evs))) as [d|] eqn:Hd;
    [|contradiction (IR Hr); reflexivity].
  exists d. split; [reflexivity|].
  unfold handleIframeLoaded, bind, getProcessedAnnotations, cloneData.
  rewrite Hconv, Hitem, Hd. destruct (hasStructuredClone r); reflexivity.
Qed.

End FurtherAnnotationProperties.

(** ** The tag-colour map *)

Lemma mapGet_mapSet (m : JsMap) (k k' : string) (v : TagEntry) :
  mapGet (mapSet m k v) k' = if String.eqb k k' then Some v else mapGet m k'.
Proof.
  induction m as [|[k0 v0] m IH]; simpl; [reflexivity|].
  destruct (String.eqb_spec k0 k) as [->|Hne]; simpl.
  - destruct (String.eqb k k'); reflexivity.
  - rewrite IH.
    destruct (String.eqb_spec k0 k') as [->|Hne'];
      destruct (String.eqb_spec k k') as [->|Hne'']; congruence.
Qed.

Lemma mapSet_keys (m : JsMap) (k x : string) (v : TagEntry) :
  In x (map fst (mapSet m k v)) <-> x = k \/ In x (map fst m).
Proof.
  induction m as [|[k0 v0] m IH]; simpl; [intuition|].
  destruct (String.eqb_spec k0 k) as [->|Hne]; simpl; [intuition|].
  rewrite IH. intuition.
Qed.

Lemma mapSet_NoDup (m : JsMap) (k : string) (v : TagEntry) :
  NoDup (map fst m) -> NoDup (map fst (mapSet m k v)).
Proof.
  induction m as [|[k0 v0] m IH]; simpl; intros Hnd.
  - constructor; [intros []|constructor].
  - inversion Hnd as [|x xs Hnotin Hnd']; subst.
    destruct (String.eqb_spec k0 k) as [->|Hne]; simpl.
    + constructor; assumption.
    + constructor; [|apply IH; exact Hnd'].
      rewrite mapSet_keys. intros [Heq|Hin]; [congruence|contradiction].
Qed.

Lemma mapOf_NoDup (entries : list (string * TagEntry)) :
  forall m, NoDup (map fst m) -> NoDup (map fst (mapOf entries m)).
Proof.
  unfold mapOf.
  induction entries as [|[k v] entries IH]; intros m Hnd; simpl; [exact Hnd|].
  apply IH, mapSet_NoDup, Hnd.
Qed.

Lemma lastTagColor_None (tagColors : list (string * string)) (name : string) :
  forall i, lastTagColor i tagColors name = None <->
            ~ In name (map fst tagColors).
Proof.
  induction tagColors as [|[n c] rest IH]; intros i; simpl; [tauto|].
  destruct (lastTagColor (S i) rest name) as [e|] eqn:Hl.
  - split; [discriminate|].
    intros Hnot. exfalso.
    assert (Hn : lastTagColor (S i) rest name = None)
      by (apply IH; tauto).
    congruence.
  - apply IH in Hl.
    destruct (String.eqb_spec n name) as [->|Hne].
    + split; [discriminate|]. intros Hnot. contradiction Hnot. auto.
    + split; [|reflexivity]. intros _ [Heq|Hin]; auto.
Qed.

Lemma lastTagColor_Some (tagColors : list (string * string)) (name : string) :
  forall i e,
    lastTagColor i tagColors name = Some e ->
    tag e = name /\ (i <= position e)%nat
    /\ nth_error tagColors (position e - i) = Some (name, color e)
    /\ forall j c, (position e - i < j)%nat ->
                   nth_error tagColors j <> Some (name, c).
Proof.
  induction tagColors as [|[n c] rest IH]; intros i e; simpl; [discriminate|].
  destruct (lastTagColor (S i) rest name) as [e'|] eqn:Hl.
  - intros H. injection H as <-.
    destruct (IH (S i) e' Hl) as (Ht & Hle & Hnth & Hlast).
    split; [exact Ht|]. split; [lia|].
    replace (position e' - i)%nat with (S (position e' - S i)) by lia.
    split; [exact Hnth|].
    intros [|j] c' Hj; [lia|]. simpl. apply Hlast. lia.
  - destruct (String.eqb_spec n name) as [->|Hne]; [|discriminate].
    intros H. injection H as <-. simpl.
    split; [reflexivity|]. split; [lia|].
    rewrite Nat.sub_diag. split; [reflexivity|].
    intros [|j] c' Hj; [lia|]. simpl. intros Hnth.
    apply (proj1 (lastTagColor_None rest name (S i)) Hl).
    apply nth_error_In in Hnth.
    apply (in_map fst) in Hnth. exact Hnth.
Qed.

Lemma mapOf_get (tagColors : list (string * string)) (name : string) :
  forall i m,
    mapGet (mapOf (tagEntriesFrom i tagColors) m) name
    = match lastTagColor i tagColors name with
      | Some e => Some e
      | None => mapGet m name
      end.
Proof.
  unfold mapOf.
  induction tagColors as [|[n c] rest IH]; intros i m; simpl; [reflexivity|].
  rewrite IH, mapGet_mapSet.
  destruct (lastTagColor (S i) rest name); [reflexivity|].
  destruct (String.eqb n name); reflexivity.
Qed.

(** X14.  The tag-colour map built for a processing pass has each tag
    name once; a name has an entry exactly when it occurs in [tagColors];
    the entry holds the name, and the colour and the index of the last
    pair of [tagColors] with that name. *)
Theorem X14_tag_colour_map_keeps_last_occurrence
  (tagColors : list (string * string)) (name : string) :
  NoDup (map fst (tagColorsMap tagColors))
  /\ (mapGet (tagColorsMap tagColors) name = None <->
      ~ In name (map fst tagColors))
  /\ (forall e,
        mapGet (tagColorsMap tagColors) name = Some e ->
        tag e = name
        /\ nth_error tagColors (position e) = Some (name, color e)
        /\ forall j c, (position e < j)%nat ->
                       nth_error tagColors j <> Some (name, c)).
Proof.
  unfold tagColorsMap. split; [apply mapOf_NoDup; constructor|].
  rewrite mapOf_get. simpl. split.
  - destruct (lastTagColor 0 tagColors name) as [e|] eqn:Hl.
    + split; [discriminate|]. intros Hnot.
      pose proof (proj2 (lastTagColor_None tagColors name O) Hnot) as Hn.
      rewrite Hn in Hl. discriminate Hl.
    + pose proof (proj1 (lastTagColor_None tagColors name O) Hl). tauto.
  - intros e He.
    destruct (lastTagColor 0 tagColors name) as [e'|] eqn:Hl;
      [|discriminate He].
    injection He as <-.
    destruct (lastTagColor_Some _ _ _ Hl) as (Ht & _ & Hnth & Hlast).
    rewrite Nat.sub_0_r in *. auto.
Qed.

(** ** The reading position, and the first render *)




Lemma attachmentKeySelector_Some (cak cik : option string) (k : string) :
  attachmentKeySelector cak cik = Some k -> k <> "".
Proof.
  unfold attachmentKeySelector.
  destruct (truthy_string cak) eqn:Ha; [intros ->|].
  - simpl in Ha. destruct (String.eqb_spec k ""); [discriminate|assumption].
  - destruct (truthy_string cik) eqn:Hi; [intros ->|discriminate].
    simpl in Hi. destruct (String.eqb_spec k ""); [discriminate|assumption].
Qed.

(** X16.  With the attachment key resolved by the selector (the
    attachment key of the route, else its item key, else null), the first
    render navigates back to the item list exactly when both keys are
    missing or empty, asks for the item details exactly when a key is
    there and its item is not in the store, never does both, and always
    ends by dropping the pdf.js history and asking for the user-library
    settings. *)
Theorem X16_first_render
  (r : Render) (cak cik userLibraryKey : option string) (skey : string) :
  attachmentKey r = attachmentKeySelector cak cik ->
  exists pre : list Intent,
    firstRenderEffect r userLibraryKey skey
    = pre ++ [localStorageRemoveItem "pdfjs.history";
              fetchLibrarySettings userLibraryKey skey]
    /\ (pre = [navigate [("items", VNull); ("attachmentKey", VNull);
                         ("noteKey", VNull); ("view", VString "item-list")]]
        <-> truthy_string cak = false /\ truthy_string cik = false)
    /\ (forall k, pre = [fetchItemDetails k]
                  <-> attachmentKey r = Some k /\ attachmentItem r = None)
    /\ (pre = []
        <-> attachmentKey r <> None /\ attachmentItem r <> None).
Proof.
  intros Hkey. unfold firstRenderEffect.
  destruct (attachmentKey r) as [k|] eqn:Hk.
  - symmetry in Hkey. pose proof (attachmentKeySelector_Some _ _ Hkey) as Hne.
    assert (Ht : truthy_string (Some k) = true)
      by (simpl; destruct (String.eqb_spec k ""); [contradiction|reflexivity]).
    assert (Hnot : ~ (truthy_string cak = false /\ truthy_string cik = false)).
    { intros [Ha Hi]. unfold attachmentKeySelector in Hkey.
      rewrite Ha, Hi in Hkey. discriminate Hkey. }
    rewrite Ht. simpl.
    destruct (attachmentItem r) as [item|]; simpl;
      [exists []|exists [fetchItemDetails k]];
      (split; [reflexivity|]); repeat split;
      try discriminate; try tauto; try congruence;
      intros; try (intuition congruence).
  - symmetry in Hkey. unfold attachmentKeySelector in Hkey.
    destruct (truthy_string cak) eqn:Ha.
    { rewrite Hkey in Ha. discriminate Ha. }
    destruct (truthy_string cik) eqn:Hi.
    { rewrite Hkey in Hi. discriminate Hi. }
    simpl.
    exists [navigate [("items", VNull); ("attachmentKey", VNull);
                      ("noteKey", VNull); ("view", VString "item-list")]].
    split; [reflexivity|].
    repeat split; try discriminate; intros; intuition congruence.
Qed.

Lemma X16_first_render_witness :
  firstRenderEffect
    {| hasStructuredClone := true; attachmentKey := Some "ITEM0007";
       attachmentItem := None; url := None; timestamp := 0; dateNow := 5;
       isFetchingUrl := false; isFetched := false;
       isFetchingUserLibrarySettings := None; annotations := [];
       prevAnnotations := None; isBusy := false; wasBusy := None |}
    (Some "u123") "lastPageIndex_u_ITEM0007"
  = [fetchItemDetails "ITEM0007"]
    ++ [localStorageRemoveItem "pdfjs.history";
        fetchLibrarySettings (Some "u123") "lastPageIndex_u_ITEM0007"].
Proof.
  destruct (@X16_first_render
              {| hasStructuredClone := true; attachmentKey := Some "ITEM0007";
                 attachmentItem := None; url := None; timestamp := 0;
                 dateNow := 5; isFetchingUrl := false; isFetched := false;
                 isFetchingUserLibrarySettings := None; annotations := [];
                 prevAnnotations := None; isBusy := false; wasBusy := None |}
              (Some "") (Some "ITEM0007") (Some "u123")
              "lastPageIndex_u_ITEM0007" eq_refl)
    as (pre & Hcalls & _ & Hdetails & _).
  rewrite Hcalls.
  rewrite (proj2 (Hdetails "ITEM0007") (conj eq_refl eq_refl)).
  reflexivity.
Defined.

(** ** The export dialog beyond one export *)

Section FurtherExportModalProperties.

Import ExportModal.

Variable firstFormat : Format.
Variable moreFormats : list Format.

(** X17.  [handleExport] throws, before it sets the busy flag or calls
    anything, exactly when the selected format is the key of no entry of
    the table; and for a format whose entry has no extension, or an empty
    one, the file name is export-data, without a dot. *)
Theorem X17_export_of_unknown_format_or_without_extension
  (itemKeys : list string) (st : ModalState) :
  ((forall f, In f (exportFormats firstFormat moreFormats) ->
              ExportModal.key f <> format st)
   <-> exists e,
         handleExport_begin firstFormat moreFormats itemKeys st = Throw e)
  /\ (forall f,
        find (fun g => String.eqb (ExportModal.key g) (format st))
             (exportFormats firstFormat moreFormats) = Some f ->
        extension f = None \/ extension f = Some "" ->
        handleExport_begin firstFormat moreFormats itemKeys st
        = Ok ({| isBusy := true; format := format st |},
              [ExportItems itemKeys (format st)], "export-data")).
Proof.
  unfold handleExport_begin, fileNameFor. split.
  - destruct (find (fun g => String.eqb (ExportModal.key g) (format st))
                   (exportFormats firstFormat moreFormats)) as [f|] eqn:Hf.
    + apply find_some in Hf. destruct Hf as [Hin Hk].
      apply String.eqb_eq in Hk. split.
      * intros Hnone. contradiction (Hnone f Hin).
      * intros (e & He). discriminate He.
    + split; [eauto|]. intros _ f Hin Hk.
      pose proof (find_none _ _ Hf f Hin) as Hn. simpl in Hn.
      apply String.eqb_neq in Hn. contradiction.
  - intros f -> [-> | ->]; reflexivity.
Qed.

(** X18.  After the dialog goes from open to closed, whatever its state
    was (a format outside the table, a busy flag left set by an export
    that never came back), it shows the Export button again and an export
    succeeds, for the first format of the table, under the file name of
    that format; any other change of visibility leaves the state alone. *)
Theorem X18_closing_resets_the_dialog
  (st : ModalState) (itemKeys : list string) (wasOpen isOpen : bool) :
  exportButtonShown (componentDidUpdate firstFormat true false st)
  = true
  /\ handleExport_begin firstFormat moreFormats itemKeys
       (componentDidUpdate firstFormat true false st)
     = Ok ({| isBusy := true; format := ExportModal.key firstFormat |},
           [ExportItems itemKeys (ExportModal.key firstFormat)],
           join "." (filterBoolean [Some "export-data"; extension firstFormat]))
  /\ (wasOpen && negb isOpen = false ->
      componentDidUpdate firstFormat wasOpen isOpen st = st).
Proof.
  split; [reflexivity|]. split.
  - unfold handleExport_begin, fileNameFor, componentDidUpdate, exportFormats.
    simpl. rewrite String.eqb_refl. reflexivity.
  - intros H. unfold componentDidUpdate. rewrite H. reflexivity.
Qed.

End FurtherExportModalProperties.

(** ** The further theorems at concrete inputs *)

Lemma X10_deleted_annotations_witness :
  deleted (sampleAnnotation "ANNOT003" "third") = false
  /\ itemType (sampleAnnotation "ANNOT003" "third") = "annotation".
Proof.
  destruct (@X10_deleted_annotations_are_never_pushed item_eqb
              ["ANNOT001"; "ANNOT002"; "ANNOT003"; "ANNOT004"]
              (fun k =>
                 if String.eqb k "ANNOT001"
                 then Some (sampleAnnotation "ANNOT001" "first, edited")
                 else if String.eqb k "ANNOT002"
                 then Some (sampleAnnotation "ANNOT002" "second")
                 else if String.eqb k "ANNOT003"
                 then Some (sampleAnnotation "ANNOT003" "third")
                 else Some {| key := k; itemType := "annotation";
                              deleted := true; contentType := "";
                              filename := ""; properties := [] |})
              samplePrev sampleCurrent
              (sampleAnnotation "ANNOT003" "third")
              eq_refl (or_intror (or_introl eq_refl)))
    as (Hd & Ht & _).
  split; [exact Hd|exact Ht].
Defined.

Lemma X11_push_after_busy_period_witness :
  annotationsEffect item_eqb sampleToJSON
    {| hasStructuredClone := true; attachmentKey := Some "ATTACH01";
       attachmentItem := Some samplePdf; url := None; timestamp := 0;
       dateNow := 5; isFetchingUrl := false; isFetched := true;
       isFetchingUserLibrarySettings := Some false;
       annotations := sampleCurrent;
       prevAnnotations := Some sampleCurrent;
       isBusy := false; wasBusy := Some true |}
    (set_isReady true initialState) true 0%nat
  = (Ok tt, [ReaderSetAnnotations (Some [])], 0%nat).
Proof.
  apply (@X11_push_after_busy_period item_eqb sampleToJSON
           {| hasStructuredClone := true; attachmentKey := Some "ATTACH01";
              attachmentItem := Some samplePdf; url := None; timestamp := 0;
              dateNow := 5; isFetchingUrl := false; isFetched := true;
              isFetchingUserLibrarySettings := Some false;
              annotations := sampleCurrent;
              prevAnnotations := Some sampleCurrent;
              isBusy := false; wasBusy := Some true |}
           (set_isReady true initialState) 0%nat);
    try reflexivity.
  - simpl. repeat constructor; simpl; intuition discriminate.
  - simpl. intros a [<-|[<-|[<-|[]]]]; reflexivity.
Defined.

Lemma X12_delta_ignores_order_witness :
  changedAnnotations item_eqb samplePrev sampleCurrent
  = changedAnnotations item_eqb (rev samplePrev) sampleCurrent.
Proof.
  apply (@X12_delta_ignores_order_of_previous item_eqb samplePrev
           (rev samplePrev) sampleCurrent).
  - simpl. repeat constructor; simpl; intuition discriminate.
  - apply Permutation_rev.
Defined.

Lemma X13_viewer_created_witness :
  exists d : Buffer,
    handleIframeLoaded sampleToJSON (sampleRenderWithAnnotations 3000)
      (state (run mounted
                [Commit (sampleRender samplePdf 2000) allEffects;
                 FetchSettled (Ok sampleOldBuf);
                 Commit (sampleRender samplePdf 2000) allEffects;
                 ImportSettled (Ok [[("id", "IMPORTED1")]]);
                 Commit (sampleRender samplePdf 2000) allEffects]))
      9%nat
    = (Ok tt,
       [CreateReader {| buf_id := 9; buf_bytes := buf_bytes d |}
          ([[("id", "ANNOT001"); ("annotationType", "highlight");
             ("annotationComment", "first")];
            [("id", "ANNOT002"); ("annotationType", "highlight");
             ("annotationComment", "second")]]
           ++ [[("id", "IMPORTED1")]])],
       10%nat).
Proof.
  destruct (@X13_viewer_created_with_a_clone_and_all_annotations sampleToJSON
              [Commit (sampleRender samplePdf 2000) allEffects;
               FetchSettled (Ok sampleOldBuf);
               Commit (sampleRender samplePdf 2000) allEffects;
               ImportSettled (Ok [[("id", "IMPORTED1")]]);
               Commit (sampleRender samplePdf 2000) allEffects]
              (sampleRenderWithAnnotations 3000) samplePdf
              [[("id", "ANNOT001"); ("annotationType", "highlight");
                ("annotationComment", "first")];
               [("id", "ANNOT002"); ("annotationType", "highlight");
                ("annotationComment", "second")]]
              9%nat eq_refl eq_refl)
    as (d & _ & Hcreate).
  - repeat constructor.
  - exists d. exact Hcreate.
Defined.

(** ** What the reducer never clears *)

Lemma readerReducer_keeps (s : State) (a : Action) :
  (data s <> None -> data (readerReducer s a) <> None)
  /\ (error s <> None -> error (readerReducer s a) <> None).
Proof.
  destruct a; simpl; split; intros H; try exact H; discriminate.
Qed.

Lemma reduceAll_keeps (acts : list Action) :
  forall s,
    (data s <> None -> data (reduceAll s acts) <> None)
    /\ (error s <> None -> error (reduceAll s acts) <> None).
Proof.
  unfold reduceAll.
  induction acts as [|a acts IH]; intros s; simpl; [tauto|].
  destruct (readerReducer_keeps s a) as [Hd He].
  destruct (IH (readerReducer s a)) as [IHd IHe]. auto.
Qed.

(** X19.  Along any sequence of events of a mount, the data, once
    present, are never null again, and an error, once recorded, is never
    cleared: it is still there after a later fetch or import succeeds. *)
Theorem X19_data_and_error_are_never_cleared (evs evs' : list Event) :
  (data (state (run mounted evs)) <> None ->
   data (state (run mounted (evs ++ evs'))) <> None)
  /\ (error (state (run mounted evs)) <> None ->
      error (state (run mounted (evs ++ evs'))) <> None).
Proof.
  rewrite run_app. generalize (run mounted evs) as m.
  induction evs' as [|e evs' IH]; intros m; [unfold run; simpl; tauto|].
  unfold run in *. simpl.
  destruct (IH (step m e)) as [IHd IHe].
  rewrite step_state in IHd, IHe.
  destruct (reduceAll_keeps (actionsOf m e) (state m)) as [Hd He].
  rewrite <- step_state in *. auto.
Qed.
